(** * TinyTestLlama: the corpus-packing script and the preset registry

    A shallow embedding of [scripts/prepare_wudao.py] (the partition
    orchestrator [prepare] and its worker [prepare_full]) and of
    [Config.from_name] in [lit_gpt/config.py], with the properties the
    specification states about them.

    Python integers are [Z], lengths and indices that cannot be negative
    are [nat], text is [string], a [dict] with string keys is a
    [gmap string _], an exception is a value of an error type, and a
    [while] loop is a fuelled function whose fuel is proved sufficient. *)

From Stdlib Require Import ZArith List Lia Ascii String Bool Arith.
From Stdlib Require Import DecimalString DecimalNat.
From Stdlib Require Import SpecFloat.
From stdpp Require Import base option list strings gmap.

Import ListNotations.
Local Open Scope Z_scope.

(* ===================================================================== *)
(** ** Text helpers: Python's decimal rendering of integers *)
(* ===================================================================== *)

Module PyStr.

(** [str(n)] / [f"{n}"] for a non-negative integer. *)
Definition decimal (n : nat) : string :=
  NilEmpty.string_of_uint (Nat.to_uint n).



Fixpoint replicate_char (n : nat) (c : ascii) : string :=
  match n with
  | O => EmptyString
  | S n' => String c (replicate_char n' c)
  end.

(** [f"{n:0{w}d}"]: decimal digits, padded on the left with zeros up to
    width [w]; longer renderings are left as they are. *)
Definition zero_padded (w n : nat) : string :=
  let d := decimal n in
  replicate_char (w - String.length d) "0"%char +:+ d.


End PyStr.

(* ===================================================================== *)
(** ** The chunk builder ([lit_gpt.packed_dataset.PackedDatasetBuilder]) *)
(* ===================================================================== *)

Module PackedDataset.

Inductive error : Set :=
| ConfigError
| IOError.

Inductive dtype_choice : Set :=
| DtAuto
| DtExplicit (width : Z).

(** Modelled from the spec: a shard file of the absent
    [lit_gpt/packed_dataset.py], "header fields {dtype_width, chunkSize,
    formatVersion} followed by chunkSize fixed-width integers": its name,
    the three header fields and the body. *)
Record Shard : Set := mkShard {
  shard_name : string;
  hdr_dtype_width : Z;
  hdr_version : Z;
  hdr_chunk_size : Z;
  shard_body : list Z
}.

(** Modelled from the spec: "BuilderState: { buffer, shard_index,
    dtype_width, sep_token, total_tokens_written }", with the destination,
    the name prefix and the chunk size given at construction. *)
Record BuilderState : Set := mkBuilder {
  outdir : string;
  prefix : string;
  chunk_size : Z;
  buffer : list Z;
  shard_index : nat;
  dtype_width : Z;
  sep_token : Z;
  total_tokens_written : Z
}.

(** Modelled from the spec: the "format version tag" of the header. *)
Definition format_version : Z := 1.

(** Modelled from the spec: the module [lit_gpt/packed_dataset.py] that
    names shard files is not among the sources.  The specification says a
    shard is "named deterministically from namePrefix and the current
    shard_index" and is identified by the pair (prefix, shard_index); the
    scheme taken here is the prefix, an underscore, the index in decimal
    zero-padded to ten digits, and the extension [.bin]. *)
Definition shard_filename (pfx : string) (idx : nat) : string :=
  pfx +:+ "_" +:+ PyStr.zero_padded 10 idx +:+ ".bin".

(** Modelled from the spec: the builder's constructor, absent from the
    sources.  Invariant 1 of the data model: the width is 2 bytes iff
    [vocab_size < 65500], else 4, when the dtype is "auto". *)
Definition select_width (dt : dtype_choice) (vocab_size : Z) : Z :=
  match dt with
  | DtAuto => if vocab_size <? 65500 then 2 else 4
  | DtExplicit w => w
  end.

(** Modelled from the spec: [new(destinationDir, namePrefix, chunkSize,
    sepToken, vocabSize, dtype)] "fails with ConfigError if
    chunkSize <= 0 or destinationDir cannot be created/written".
    [dir_ok] says whether the destination can be created and written. *)
Definition new (dir_ok : bool) (destinationDir namePrefix : string)
    (chunkSize sepToken vocabSize : Z) (dt : dtype_choice)
    : error + BuilderState :=
  if chunkSize <=? 0 then inl ConfigError
  else if negb dir_ok then inl ConfigError
  else inr {| outdir := destinationDir;
              prefix := namePrefix;
              chunk_size := chunkSize;
              buffer := [];
              shard_index := 0%nat;
              dtype_width := select_width dt vocabSize;
              sep_token := sepToken;
              total_tokens_written := 0 |}.

(** Modelled from the spec: the shard that [append] writes, "the first
    chunkSize tokens" of the buffer under the name of the current index. *)
Definition next_shard (b : BuilderState) : Shard :=
  {| shard_name := shard_filename (prefix b) (shard_index b);
     hdr_dtype_width := dtype_width b;
     hdr_version := format_version;
     hdr_chunk_size := chunk_size b;
     shard_body := firstn (Z.to_nat (chunk_size b)) (buffer b) |}.

(** Modelled from the spec: the builder after that shard has left the
    buffer and [shard_index] has been incremented. *)
Definition after_shard (b : BuilderState) : BuilderState :=
  {| outdir := outdir b;
     prefix := prefix b;
     chunk_size := chunk_size b;
     buffer := skipn (Z.to_nat (chunk_size b)) (buffer b);
     shard_index := S (shard_index b);
     dtype_width := dtype_width b;
     sep_token := sep_token b;
     total_tokens_written := total_tokens_written b + chunk_size b |}.

(** Modelled from the spec: the flushing loop of [append], "while buffer
    length >= chunkSize, removes the first chunkSize tokens (FIFO order)
    and writes them as a new Shard file ..., then increments
    shard_index".  [disk] is the sequence of files written so far, oldest
    first; [None] means the loop did not finish within [fuel] turns. *)
Fixpoint flush (fuel : nat) (b : BuilderState) (disk : list Shard)
    : option (BuilderState * list Shard) :=
  match fuel with
  | O => None
  | S fuel' =>
      if chunk_size b <=? Z.of_nat (length (buffer b))
      then flush fuel' (after_shard b) (disk ++ [next_shard b])
      else Some (b, disk)
  end.

(** Modelled from the spec: "pushes sepToken then tokens onto the
    buffer". *)
Definition push (b : BuilderState) (tokens : list Z) : BuilderState :=
  {| outdir := outdir b;
     prefix := prefix b;
     chunk_size := chunk_size b;
     buffer := buffer b ++ sep_token b :: tokens;
     shard_index := shard_index b;
     dtype_width := dtype_width b;
     sep_token := sep_token b;
     total_tokens_written := total_tokens_written b |}.

(** Modelled from the spec: [append(tokens)] (the source calls it
    [add_array]) "pushes sepToken then tokens onto the buffer" and then
    flushes every full chunk.  One turn of the loop per token held is
    always enough when [chunk_size] is positive. *)
Definition append (b : BuilderState) (tokens : list Z) (disk : list Shard)
    : option (BuilderState * list Shard) :=
  let b' := push b tokens in
  flush (S (length (buffer b'))) b' disk.

(** A sequence of [append] calls, one per document, in order. *)
Fixpoint append_all (b : BuilderState) (docs : list (list Z))
    (disk : list Shard) : option (BuilderState * list Shard) :=
  match docs with
  | [] => Some (b, disk)
  | d :: rest =>
      match append b d disk with
      | None => None
      | Some (b', disk') => append_all b' rest disk'
      end
  end.

(** Modelled from the spec: [finalize()] "discards any remaining buffer
    content; returns summary counters (shard_index,
    total_tokens_written)"; it writes nothing. *)
Definition finalize (b : BuilderState) (disk : list Shard)
    : BuilderState * list Shard * (nat * Z) :=
  ({| outdir := outdir b;
      prefix := prefix b;
      chunk_size := chunk_size b;
      buffer := [];
      shard_index := shard_index b;
      dtype_width := dtype_width b;
      sep_token := sep_token b;
      total_tokens_written := total_tokens_written b |},
   disk,
   (shard_index b, total_tokens_written b)).

(** The separator-interleaved stream of a sequence of documents. *)
Definition interleaved (sep : Z) (docs : list (list Z)) : list Z :=
  concat (map (fun d => sep :: d) docs).

Definition bodies (disk : list Shard) : list Z :=
  concat (map shard_body disk).

(** The fields a builder never changes after construction. *)
Definition same_settings (b b' : BuilderState) : Prop :=
  outdir b' = outdir b /\ prefix b' = prefix b /\
  chunk_size b' = chunk_size b /\ dtype_width b' = dtype_width b /\
  sep_token b' = sep_token b.

(** A shard as builder [b] writes them, with index [i]. *)
Definition shard_of (b : BuilderState) (i : nat) (sh : Shard) : Prop :=
  shard_name sh = shard_filename (prefix b) i /\
  hdr_dtype_width sh = dtype_width b /\
  hdr_version sh = format_version /\
  hdr_chunk_size sh = chunk_size b /\
  Z.of_nat (length (shard_body sh)) = chunk_size b.

(** Shards numbered consecutively from [i]. *)
Fixpoint shards_from (b : BuilderState) (i : nat) (l : list Shard) : Prop :=
  match l with
  | [] => True
  | sh :: rest => shard_of b i sh /\ shards_from b (S i) rest
  end.

(** What holds between a builder, the files it has written and the
    tokens it has been given so far. *)
Definition packed (b0 b : BuilderState) (disk : list Shard)
    (stream : list Z) : Prop :=
  same_settings b0 b /\
  bodies disk ++ buffer b = stream /\
  Z.of_nat (length (buffer b)) < chunk_size b0 /\
  shards_from b0 0 disk /\
  shard_index b = length disk /\
  total_tokens_written b = chunk_size b0 * Z.of_nat (length disk).


End PackedDataset.

(* ===================================================================== *)
(** ** Python exceptions and the result type of fallible code *)
(* ===================================================================== *)

Module Py.

Inductive exn : Set :=
| KeyError
| ValueError
| OverflowError
| RuntimeError
| TypeError
| AssertionError
| ZeroDivisionError
| OSError
| BuilderError (e : PackedDataset.error)
| Diverges.   (* a loop that does not end *)

Definition result (A : Type) : Type := exn + A.

Definition rbind {A B} (m : result A) (f : A -> result B) : result B :=
  match m with
  | inl e => inl e
  | inr a => f a
  end.

(** [l[:k]] for a Python list: a negative [k] counts from the end. *)
Definition slice_to {A} (l : list A) (k : Z) : list A :=
  if 0 <=? k then firstn (Z.to_nat k) l
  else firstn (Z.to_nat (Z.of_nat (length l) + k)) l.

(** [os.path.join(a, b)]. *)
Definition ends_with_slash (a : string) : bool :=
  match String.get (String.length a - 1) a with
  | Some c => Ascii.eqb c "/"%char
  | None => false
  end.

Definition path_join (a b : string) : string :=
  match String.get 0 b with
  | Some c =>
      if Ascii.eqb c "/"%char then b
      else if (Nat.eqb (String.length a) 0 || ends_with_slash a)%bool
           then a +:+ b
           else a +:+ "/" +:+ b
  | None =>
      if (Nat.eqb (String.length a) 0 || ends_with_slash a)%bool
      then a else a +:+ "/"
  end.

End Py.

(* ===================================================================== *)
(** ** Python floats: IEEE-754 binary64, after [SpecFloat] *)
(* ===================================================================== *)

Module PyFloat.
Import Py.

Definition prec : Z := 53.
Definition emax : Z := 1024.

(** [float(n)] as done implicitly by [n * x]: round to nearest even, and
    [OverflowError] when [n] is too large for a double. *)
Definition of_int (n : Z) : result spec_float :=
  match binary_normalize prec emax n 0 false with
  | S754_infinity _ => inl OverflowError
  | f => inr f
  end.

Definition mul (x y : spec_float) : spec_float := SFmul prec emax x y.

(** [n * x] for an [int] n and a [float] x. *)
Definition int_mul (n : Z) (x : spec_float) : result spec_float :=
  rbind (of_int n) (fun f => inr (mul f x)).

(** [int(x)]: truncation toward zero. *)
Definition to_int (x : spec_float) : result Z :=
  match x with
  | S754_zero _ => inr 0
  | S754_infinity _ => inl OverflowError
  | S754_nan => inl ValueError
  | S754_finite s m e => inr (cond_Zopp s (Z.shiftl (Zpos m) e))
  end.

(** The exact value of a finite double as a fraction [num / den]. *)
Definition exact (x : spec_float) : option (Z * positive) :=
  match x with
  | S754_zero _ => Some (0, 1%positive)
  | S754_finite s m e =>
      match e with
      | Zneg k => Some (cond_Zopp s (Zpos m), Pos.pow 2 k)
      | _ => Some (cond_Zopp s (Zpos m) * 2 ^ e, 1%positive)
      end
  | _ => None
  end.

(** [floor] of a fraction and of a product [n * (num / den)] taken
    exactly, without rounding. *)
Definition floor_frac (q : Z * positive) : Z := fst q / Zpos (snd q).

Definition exact_scaled_floor (n : Z) (x : spec_float) : option Z :=
  match exact x with
  | Some (a, d) => Some (floor_frac (n * a, d))
  | None => None
  end.

Definition floor (x : spec_float) : option Z :=
  option_map floor_frac (exact x).

End PyFloat.

(* ===================================================================== *)
(** ** [numpy.array_split] with an integer number of sections *)
(* ===================================================================== *)

Module Numpy.
Import Py.

(** [extras * [Neach_section + 1] + (Nsections - extras) * [Neach_section]]
    with [Neach_section, extras = divmod(Ntotal, Nsections)]. *)
Definition section_sizes (Ntotal Nsections : nat) : list nat :=
  (repeat (S (Ntotal / Nsections)) (Ntotal mod Nsections)
   ++ repeat (Ntotal / Nsections) (Nsections - Ntotal mod Nsections))%nat.

(** [ary[st:end]] for [0 <= st <= end]. *)
Definition slice {A} (st en : nat) (ary : list A) : list A :=
  firstn (en - st) (skipn st ary).

(** The loop over [div_points], the running sum of the section sizes:
    section [i] is [ary[div_points[i] : div_points[i+1]]]. *)
Fixpoint sub_arys {A} (st : nat) (sizes : list nat) (ary : list A)
    : list (list A) :=
  match sizes with
  | [] => []
  | n :: rest =>
      slice st (st + n)%nat ary :: sub_arys (st + n)%nat rest ary
  end.

Definition array_split {A} (ary : list A) (Nsections : Z)
    : result (list (list A)) :=
  if Nsections <=? 0 then inl ValueError
  else inr (sub_arys 0 (section_sizes (length ary) (Z.to_nat Nsections)) ary).

End Numpy.

(* ===================================================================== *)
(** ** [scripts/prepare_wudao.py] *)
(* ===================================================================== *)

Module PrepareWudao.
Import Py.

(** The tokenizer collaborator: [encode], [bos_id], [vocab_size]. *)
Record Tokenizer : Type := mkTokenizer {
  encode : string -> list Z;
  bos_id : Z;
  vocab_size : Z
}.

(** What [open(filepath, encoding="utf-8")] followed by [json.load(f)]
    gives: the rows of the file, a row being the value under its
    ["content"] key, [None] when the key is missing; or no rows, because
    the file cannot be opened ([open] raises [OSError]), or because it
    opens and its text is not JSON ([json.load] raises
    [json.JSONDecodeError] or [UnicodeDecodeError], both of them
    [ValueError]). *)
Inductive loaded : Type :=
| Rows (texts : list (option string))
| NotOpened
| NotParsed.

(** What the script reads from its surroundings. *)
Record World : Type := mkWorld {
  glob_glob : string -> list string;
  cpu_count : Z;
  load_tokenizer : string -> option Tokenizer;
  json_load : string -> loaded;
  mkdir_ok : string -> bool
}.

(** [wudao_sets = {"train": "./*"}]. *)
Definition wudao_sets (split : string) : result string :=
  if String.eqb split "train" then inr "./*"%string else inl KeyError.

(** What a worker process does that is visible from outside. *)
Inductive event : Type :=
| EvMkdir (path : string)
| EvTokenizer (path : string)
| EvBuilder (prefix : string)
| EvPrint (msg : string)
| EvOpen (path : string)
| EvWrite (sh : PackedDataset.Shard).

(** A computation that logs events and ends with a value or raises. *)
Definition W (A : Type) : Type := list event * result A.

Definition ret {A} (a : A) : W A := ([], inr a).
Definition raise {A} (e : exn) : W A := ([], inl e).
Definition emit (ev : event) : W unit := ([ev], inr tt).
Definition lift {A} (r : result A) : W A := ([], r).

Definition bind {A B} (m : W A) (f : A -> W B) : W B :=
  match m with
  | (log, inl e) => (log, inl e)
  | (log, inr a) => let '(log', r) := f a in (log ++ log', r)
  end.

Notation "'let*' x ':=' m 'in' k" := (bind m (fun x => k))
  (at level 10, x name, m at level 100, k at level 200).
Notation "m ;; k" := (bind m (fun _ => k))
  (at level 100, right associativity).

Definition of_option {A} (e : exn) (o : option A) : W A :=
  match o with
  | Some a => ret a
  | None => raise e
  end.

(** [builder.add_array(np.array(text_ids, dtype=builder.dtype))]: the
    builder's append; every shard it flushes is a file written.  The ids
    of a tokenizer lie in [0, vocab_size), which the chosen dtype holds,
    so the array keeps them as they are. *)
Definition add_array (b : PackedDataset.BuilderState) (text_ids : list Z)
    : W PackedDataset.BuilderState :=
  match PackedDataset.append b text_ids [] with
  | None => raise Diverges
  | Some (b', written) => (map EvWrite written, inr b')
  end.

(** [for row in tqdm(texts): ...] *)
Fixpoint add_rows (tok : Tokenizer) (b : PackedDataset.BuilderState)
    (texts : list (option string)) : W PackedDataset.BuilderState :=
  match texts with
  | [] => ret b
  | row :: rest =>
      let* content := of_option KeyError row in
      let* b' := add_array b (encode tok content) in
      add_rows tok b' rest
  end.

(** [for filepath in filenames: ...] *)
Fixpoint process_files (w : World) (tok : Tokenizer)
    (b : PackedDataset.BuilderState) (filenames : list string)
    : W PackedDataset.BuilderState :=
  match filenames with
  | [] => ret b
  | filepath :: rest =>
      emit (EvPrint ("Processing " +:+ filepath)) ;;
      emit (EvOpen filepath) ;;
      let* texts := match json_load w filepath with
                    | Rows texts => ret texts
                    | NotOpened => raise OSError
                    | NotParsed => raise ValueError
                    end in
      let* b' := add_rows tok b texts in
      process_files w tok b' rest
  end.

(** [f"{split}_wudao_{process_id}"] *)
Definition builder_prefix (split : string) (process_id : nat) : string :=
  split +:+ "_wudao_" +:+ PyStr.decimal process_id.

(** [prepare_full].  The function returns [None]; the value given here is
    the builder as it stands when the function ends, which the source
    leaves to the garbage collector ([write_reminder] is commented out). *)
Definition prepare_full (w : World)
    (source_path tokenizer_path destination_path : string)
    (chunk_size : Z) (split : string)
    (filenames_subset : option (list string)) (process_id : nat)
    : W PackedDataset.BuilderState :=
  emit (EvMkdir destination_path) ;;
  (if mkdir_ok w destination_path then ret tt else raise OSError) ;;
  emit (EvTokenizer tokenizer_path) ;;
  let* tokenizer := of_option OSError (load_tokenizer w tokenizer_path) in
  match filenames_subset with
  | None | Some [] =>
      (* raise RuntimeError(f"No files matching {wudao_sets[split]} ...") *)
      let* pattern := lift (wudao_sets split) in
      raise RuntimeError
  | Some filenames =>
      let pfx := builder_prefix split process_id in
      emit (EvBuilder pfx) ;;
      let* builder := lift
        match PackedDataset.new true destination_path pfx chunk_size
                (bos_id tokenizer) (vocab_size tokenizer)
                PackedDataset.DtAuto with
        | inl e => inl (BuilderError e)
        | inr b => inr b
        end in
      process_files w tokenizer builder filenames
  end.

(** What the orchestrating process does. *)
Inductive oevent : Type :=
| OPrintCount (n : nat)               (* "the number of files: n" *)
| OStart (i : nat) (subset : list string)   (* Process(...).start() *)
| OJoin (i : nat)                     (* p.join() *)
| OPrintElapsed.                      (* "Time taken: ... seconds" *)

(** One run of [prepare]: the orchestrator's own events and outcome, and
    for each process started, in order of start, the run of its target.
    A child's exception ends the child; [join] returns all the same, and
    the source reads no exit code. *)
Record Run : Type := mkRun {
  orch_events : list oevent;
  workers : list (W PackedDataset.BuilderState);
  outcome : result unit
}.

Definition failed_before_start (e : exn) : Run :=
  {| orch_events := []; workers := []; outcome := inl e |}.

(** [enumerate(chunked_filenames)] *)
Fixpoint enumerate {A} (i : nat) (l : list A) : list (nat * A) :=
  match l with
  | [] => []
  | x :: rest => (i, x) :: enumerate (S i) rest
  end.

(** The events of a run that gets as far as starting its processes: the
    count printed, every [Process] started in order, then every one
    joined in order, then the elapsed time printed. *)
Definition run_events (files : list string) (groups : list (list string))
    : list oevent :=
  OPrintCount (length files)
  :: map (fun p => OStart (fst p) (snd p)) (enumerate 0 groups)
  ++ map (fun p => OJoin (fst p)) (enumerate 0 groups)
  ++ [OPrintElapsed].

(** [filenames[:int(len(filenames) * percentage)]] *)
Definition sample (filenames : list string) (percentage : spec_float)
    : result (list string) :=
  rbind (PyFloat.int_mul (Z.of_nat (length filenames)) percentage) (fun x =>
  rbind (PyFloat.to_int x) (fun k =>
  inr (slice_to filenames k))).

(** [prepare] *)
Definition prepare (w : World)
    (source_path tokenizer_path destination_path : string)
    (chunk_size : Z) (split : string) (percentage : spec_float) : Run :=
  match wudao_sets split with
  | inl e => failed_before_start e
  | inr pattern =>
    let filenames := glob_glob w (path_join source_path pattern) in
    match sample filenames percentage with
    | inl e => failed_before_start e
    | inr filenames =>
      let num_processes := cpu_count w in
      match Numpy.array_split filenames num_processes with
      | inl e =>
          {| orch_events := [OPrintCount (length filenames)];
             workers := [];
             outcome := inl e |}
      | inr chunked_filenames =>
          {| orch_events := run_events filenames chunked_filenames;
             workers :=
               map (fun p =>
                      prepare_full w source_path tokenizer_path
                        destination_path chunk_size split
                        (Some (snd p)) (fst p))
                 (enumerate 0 chunked_filenames);
             outcome := inr tt |}
      end
    end
  end.

(** The groups handed to the processes that were started, in order. *)
Definition started (r : Run) : list (list string) :=
  flat_map (fun ev => match ev with
                      | OStart _ subset => [subset]
                      | _ => []
                      end) (orch_events r).

Definition raised {A} (m : W A) : bool :=
  match snd m with
  | inl _ => true
  | inr _ => false
  end.

(** The shard files a worker wrote, in the order written. *)
Definition writes_of (log : list event) : list PackedDataset.Shard :=
  flat_map (fun ev => match ev with
                      | EvWrite sh => [sh]
                      | _ => []
                      end) log.

Definition written {A} (m : W A) : list PackedDataset.Shard :=
  writes_of (fst m).

(** The prefixes of the builders a worker constructed. *)
Definition builders_of (log : list event) : list string :=
  flat_map (fun ev => match ev with
                      | EvBuilder p => [p]
                      | _ => []
                      end) log.

(** The documents of a group of files, in order, when every file loads
    and every row has its ["content"]. *)
Fixpoint contents (texts : list (option string)) : option (list string) :=
  match texts with
  | [] => Some []
  | None :: _ => None
  | Some c :: rest => option_map (cons c) (contents rest)
  end.

Fixpoint corpus (w : World) (filenames : list string)
    : option (list string) :=
  match filenames with
  | [] => Some []
  | filepath :: rest =>
      match json_load w filepath with
      | Rows texts =>
          match contents texts, corpus w rest with
          | Some cs, Some more => Some (cs ++ more)
          | _, _ => None
          end
      | _ => None
      end
  end.

(** A small world to run the script in: two files of three documents in
    all, a tokenizer that maps a character to its code, two CPUs. *)
Definition toy_tokenizer : Tokenizer :=
  {| encode := fun s =>
       map (fun c => Z.of_nat (nat_of_ascii c)) (list_ascii_of_string s);
     bos_id := 1;
     vocab_size := 32000 |}.

Definition toy_world : World :=
  {| glob_glob := fun _ => ["a.json"; "b.json"]%string;
     cpu_count := 2;
     load_tokenizer := fun _ => Some toy_tokenizer;
     json_load := fun f =>
       if String.eqb f "a.json" then Rows [Some "ab"; Some "c"]%string
       else if String.eqb f "b.json" then Rows [Some "de"%string]
       else NotOpened;
     mkdir_ok := fun _ => true |}.

(** The same surroundings with another source directory listing and
    another number of CPUs. *)
Definition toy_world_with (listing : list string) (cpus : Z) : World :=
  {| glob_glob := fun _ => listing;
     cpu_count := cpus;
     load_tokenizer := load_tokenizer toy_world;
     json_load := json_load toy_world;
     mkdir_ok := mkdir_ok toy_world |}.

Definition eleven_files : list string :=
  ["f00"; "f01"; "f02"; "f03"; "f04"; "f05"; "f06"; "f07"; "f08"; "f09";
   "f10"]%string.

(** The doubles 1.0, 0.5, -0.5 and the double nearest to 1/3. *)
Definition float_1 : spec_float := S754_finite false 4503599627370496 (-52).
Definition float_half : spec_float := S754_finite false 4503599627370496 (-53).
Definition float_minus_half : spec_float :=
  S754_finite true 4503599627370496 (-53).
Definition float_third : spec_float := S754_finite false 6004799503160661 (-54).

End PrepareWudao.

(* ===================================================================== *)
(** ** [lit_gpt/config.py]: [Config] and the registry [name_to_config] *)
(* ===================================================================== *)

Module LitConfig.
Import Py.

(** Addresses of [dict] objects. *)
Definition loc : Set := nat.

(** The values a preset or an override holds.  A nested [dict] (such as
    [hf_config]) is held by reference. *)
Inductive value : Set :=
| VNone
| VBool (b : bool)
| VInt (z : Z)
| VFloat (f : spec_float)
| VStr (s : string)
| VDict (l : loc).

(** The interpreter's state: the [dict] objects that exist, and the
    module-level [name_to_config], which maps a preset name to the very
    [dict] object listed in [configs]. *)
Record State : Type := mkState {
  heap : gmap loc (gmap string value);
  name_to_config : gmap string loc
}.

(** Every registry entry refers to an object that exists. *)
Definition wf (st : State) : Prop :=
  forall (n : string) (l : loc),
    name_to_config st !! n = Some l -> is_Some (heap st !! l).

(** The key/value pairs a registry entry holds, if the name is there. *)
Definition entry (st : State) (n : string) : option (gmap string value) :=
  match name_to_config st !! n with
  | Some l => heap st !! l
  | None => None
  end.

(** Python's operators on these values, and [find_multiple] of
    [litgpt.utils]; all of them compute a result from immutable
    arguments and touch no object. *)
Record PyOps : Type := mkOps {
  py_mod : value -> value -> result value;
  py_mul : value -> value -> result value;
  py_eq : value -> value -> bool;
  find_multiple : value -> value -> result value
}.

Record Config : Set := mkConfig {
  org : value;
  name : value;
  block_size : value;
  vocab_size : value;
  padding_multiple : value;
  padded_vocab_size : value;
  n_layer : value;
  n_head : value;
  n_embd : value;
  rotary_percentage : value;
  parallel_residual : value;
  bias : value;
  n_query_groups : value;
  shared_attention_norm : value;
  _norm_class : value;
  norm_eps : value;
  _mlp_class : value;
  intermediate_size : value;
  condense_ratio : value
}.

Definition field_names : list string :=
  ["org"; "name"; "block_size"; "vocab_size"; "padding_multiple";
   "padded_vocab_size"; "n_layer"; "n_head"; "n_embd";
   "rotary_percentage"; "parallel_residual"; "bias"; "n_query_groups";
   "shared_attention_norm"; "_norm_class"; "norm_eps"; "_mlp_class";
   "intermediate_size"; "condense_ratio"]%string.

(** 0.25 and 1e-05 as doubles. *)
Definition float_0_25 : spec_float := S754_finite false 4503599627370496 (-54).
Definition float_1em5 : spec_float := S754_finite false 5902958103587057 (-69).

Definition is_none (v : value) : bool :=
  match v with
  | VNone => true
  | _ => false
  end.

Definition set_padded_vocab_size (c : Config) (v : value) : Config :=
  mkConfig (org c) (name c) (block_size c) (vocab_size c)
    (padding_multiple c) v (n_layer c) (n_head c) (n_embd c)
    (rotary_percentage c) (parallel_residual c) (bias c)
    (n_query_groups c) (shared_attention_norm c) (_norm_class c)
    (norm_eps c) (_mlp_class c) (intermediate_size c) (condense_ratio c).

Definition set_n_query_groups (c : Config) (v : value) : Config :=
  mkConfig (org c) (name c) (block_size c) (vocab_size c)
    (padding_multiple c) (padded_vocab_size c) (n_layer c) (n_head c)
    (n_embd c) (rotary_percentage c) (parallel_residual c) (bias c)
    v (shared_attention_norm c) (_norm_class c)
    (norm_eps c) (_mlp_class c) (intermediate_size c) (condense_ratio c).

Definition set_intermediate_size (c : Config) (v : value) : Config :=
  mkConfig (org c) (name c) (block_size c) (vocab_size c)
    (padding_multiple c) (padded_vocab_size c) (n_layer c) (n_head c)
    (n_embd c) (rotary_percentage c) (parallel_residual c) (bias c)
    (n_query_groups c) (shared_attention_norm c) (_norm_class c)
    (norm_eps c) (_mlp_class c) v (condense_ratio c).

Section Construction.
Variable ops : PyOps.

(** [assert a % b == 0] *)
Definition assert_divides (a b : value) : result unit :=
  rbind (py_mod ops a b) (fun r =>
  if py_eq ops r (VInt 0) then inr tt else inl AssertionError).

(** [__post_init__] *)
Definition post_init (self : Config) : result Config :=
  rbind (assert_divides (n_embd self) (n_head self)) (fun _ =>
  rbind (if is_none (padded_vocab_size self)
         then rbind (find_multiple ops (vocab_size self)
                       (padding_multiple self))
                (fun v => inr (set_padded_vocab_size self v))
         else inr self) (fun self =>
  rbind (if negb (is_none (n_query_groups self))
         then rbind (assert_divides (n_head self) (n_query_groups self))
                (fun _ => inr self)
         else inr (set_n_query_groups self (n_head self))) (fun self =>
  if is_none (intermediate_size self)
  then if py_eq ops (_mlp_class self) (VStr "LLaMAMLP")
       then inl ValueError
       else rbind (py_mul ops (VInt 4) (n_embd self))
              (fun v => inr (set_intermediate_size self v))
  else inr self))).

(** The generated [__init__]: a keyword that names no field is a
    [TypeError]; a field without a keyword takes its default. *)
Definition init_fields (kw : gmap string value) : Config :=
  let get (k : string) (dflt : value) := default dflt (kw !! k) in
  {| org := get "org"%string (VStr "Lightning-AI");
     name := get "name"%string (VStr "lit-GPT");
     block_size := get "block_size"%string (VInt 4096);
     vocab_size := get "vocab_size"%string (VInt 50254);
     padding_multiple := get "padding_multiple"%string (VInt 512);
     padded_vocab_size := get "padded_vocab_size"%string VNone;
     n_layer := get "n_layer"%string (VInt 16);
     n_head := get "n_head"%string (VInt 32);
     n_embd := get "n_embd"%string (VInt 4096);
     rotary_percentage := get "rotary_percentage"%string (VFloat float_0_25);
     parallel_residual := get "parallel_residual"%string (VBool true);
     bias := get "bias"%string (VBool true);
     n_query_groups := get "n_query_groups"%string VNone;
     shared_attention_norm := get "shared_attention_norm"%string (VBool false);
     _norm_class := get "_norm_class"%string (VStr "LayerNorm");
     norm_eps := get "norm_eps"%string (VFloat float_1em5);
     _mlp_class := get "_mlp_class"%string (VStr "GptNeoxMLP");
     intermediate_size := get "intermediate_size"%string VNone;
     condense_ratio := get "condense_ratio"%string (VInt 1) |}.

(** The call of [cls] on the unpacked [conf_dict]. *)
Definition construct (conf_dict : gmap string value) : result Config :=
  if forallb (fun k => bool_decide (k ∈ field_names))
       (elements (dom conf_dict))
  then post_init (init_fields conf_dict)
  else inl TypeError.

(** [d.copy()]: a new [dict] object with the same items. *)
Definition dict_copy (l : loc) (st : State) : State * result loc :=
  match heap st !! l with
  | Some d =>
      let l' := fresh (dom (heap st)) in
      ({| heap := <[l' := d]> (heap st);
          name_to_config := name_to_config st |}, inr l')
  | None => (st, inl KeyError)
  end.

(** [d.update(kwargs)]: the keys of [kwargs] are written into [d]. *)
Definition dict_update (l : loc) (kwargs : gmap string value)
    (st : State) : State * result unit :=
  match heap st !! l with
  | Some d =>
      ({| heap := <[l := kwargs ∪ d]> (heap st);
          name_to_config := name_to_config st |}, inr tt)
  | None => (st, inl KeyError)
  end.

(** [Config.from_name(name, **kwargs)] *)
Definition from_name (nm : string) (kwargs : gmap string value)
    (st : State) : State * result Config :=
  match name_to_config st !! nm with
  | None => (st, inl KeyError)
  | Some l =>
      match dict_copy l st with
      | (st1, inl e) => (st1, inl e)
      | (st1, inr conf_dict) =>
          match dict_update conf_dict kwargs st1 with
          | (st2, inl e) => (st2, inl e)
          | (st2, inr _) =>
              match heap st2 !! conf_dict with
              | Some d => (st2, construct d)
              | None => (st2, inl KeyError)
              end
          end
      end
  end.

End Construction.

(** The operators on [int] operands, where [%] is the floored remainder
    and [find_multiple(n, k)] is the least multiple of [k] that is at
    least [n]; other operand types are left as a [TypeError] here. *)
Definition value_eqb (a b : value) : bool :=
  match a, b with
  | VNone, VNone => true
  | VBool x, VBool y => Bool.eqb x y
  | VInt x, VInt y => x =? y
  | VStr x, VStr y => String.eqb x y
  | VDict x, VDict y => Nat.eqb x y
  | VFloat x, VFloat y => SFeqb x y
  | _, _ => false
  end.

Definition int_ops : PyOps :=
  {| py_mod := fun a b =>
       match a, b with
       | VInt x, VInt y =>
           if y =? 0 then inl ZeroDivisionError else inr (VInt (x mod y))
       | _, _ => inl TypeError
       end;
     py_mul := fun a b =>
       match a, b with
       | VInt x, VInt y => inr (VInt (x * y))
       | _, _ => inl TypeError
       end;
     py_eq := value_eqb;
     find_multiple := fun n k =>
       match n, k with
       | VInt x, VInt y =>
           if y <=? 0 then inl AssertionError
           else if x mod y =? 0 then inr (VInt x)
           else inr (VInt (x + y - x mod y))
       | _, _ => inl TypeError
       end |}.

(** Two presets as [configs] lists them (StableLM base alpha 3b and 7b),
    each an object of its own, and the registry built from them. *)
Definition stablelm_3b : gmap string value :=
  {[ "org"%string := VStr "stabilityai";
     "name"%string := VStr "stablelm-base-alpha-3b";
     "padding_multiple"%string := VInt 512 ]}.

Definition stablelm_7b : gmap string value :=
  {[ "org"%string := VStr "stabilityai";
     "name"%string := VStr "stablelm-base-alpha-7b";
     "n_head"%string := VInt 48;
     "n_embd"%string := VInt 6144;
     "padding_multiple"%string := VInt 256 ]}.

Definition two_presets : State :=
  {| heap := {[ 0%nat := stablelm_3b; 1%nat := stablelm_7b ]};
     name_to_config := {[ "stablelm-base-alpha-3b"%string := 0%nat;
                          "stablelm-base-alpha-7b"%string := 1%nat ]} |}.

End LitConfig.

(* ===================================================================== *)
(** ** More of [scripts/prepare_wudao.py]: what a worker opened *)
(* ===================================================================== *)

Module WorkerTrace.
Import Py PrepareWudao.

(** The input files a worker opened, in the order opened. *)
Definition opened_of (log : list event) : list string :=
  flat_map (fun ev => match ev with
                      | EvOpen p => [p]
                      | _ => []
                      end) log.

(** Not-a-number and the two infinities as doubles. *)
Definition not_finite (x : spec_float) : bool :=
  match x with
  | S754_nan | S754_infinity _ => true
  | _ => false
  end.

(** A world like [toy_world] in which two more files exist: one whose
    second row has no ["content"], and one whose text is not JSON. *)
Definition toy_world_bad_row : World :=
  {| glob_glob := glob_glob toy_world;
     cpu_count := cpu_count toy_world;
     load_tokenizer := load_tokenizer toy_world;
     json_load := fun f =>
       if String.eqb f "c.json" then Rows [Some "ab"%string; None]
       else if String.eqb f "d.json" then NotParsed
       else json_load toy_world f;
     mkdir_ok := mkdir_ok toy_world |}.

(** The exception of a file that gives no rows. *)
Definition load_error (r : loaded) : option exn :=
  match r with
  | Rows _ => None
  | NotOpened => Some OSError
  | NotParsed => Some ValueError
  end.

End WorkerTrace.

(* ===================================================================== *)
(** ** More of [lit_gpt/config.py]: fields, [head_size], the registry *)
(* ===================================================================== *)

Module ConfigMore.
Import Py LitConfig.

(** The fields of a [Config] by name, in the order of the dataclass. *)
Definition fields (c : Config) : list (string * value) :=
  [("org", org c); ("name", name c); ("block_size", block_size c);
   ("vocab_size", vocab_size c); ("padding_multiple", padding_multiple c);
   ("padded_vocab_size", padded_vocab_size c); ("n_layer", n_layer c);
   ("n_head", n_head c); ("n_embd", n_embd c);
   ("rotary_percentage", rotary_percentage c);
   ("parallel_residual", parallel_residual c); ("bias", bias c);
   ("n_query_groups", n_query_groups c);
   ("shared_attention_norm", shared_attention_norm c);
   ("_norm_class", _norm_class c); ("norm_eps", norm_eps c);
   ("_mlp_class", _mlp_class c);
   ("intermediate_size", intermediate_size c);
   ("condense_ratio", condense_ratio c)]%string.

(** [getattr(c, k)] for a field name [k]. *)
Definition get_field (c : Config) (k : string) : option value :=
  option_map snd (List.find (fun p => String.eqb (fst p) k) (fields c)).

(** The fields that [__post_init__] never assigns. *)
Definition plain_fields : list string :=
  ["org"; "name"; "block_size"; "vocab_size"; "padding_multiple"; "n_layer";
   "n_head"; "n_embd"; "rotary_percentage"; "parallel_residual"; "bias";
   "shared_attention_norm"; "_norm_class"; "norm_eps"; "_mlp_class";
   "condense_ratio"]%string.

(** [//] on [int] operands, the floored quotient; as in [int_ops], other
    operand types are left as a [TypeError] here. *)
Definition int_floordiv (a b : value) : result value :=
  match a, b with
  | VInt x, VInt y =>
      if y =? 0 then inl ZeroDivisionError else inr (VInt (x / y))
  | _, _ => inl TypeError
  end.

(** The property [head_size]: [self.n_embd // self.n_head]. *)
Definition head_size (floordiv : value -> value -> result value)
    (self : Config) : result value :=
  floordiv (n_embd self) (n_head self).

(** The end of a piece of module-level code: done, an exception, or a
    value met that this embedding does not represent (a preset name that
    is not a [str]), where the source would go on. *)
Inductive outcome (A : Type) : Type :=
| Done (a : A)
| Raised (e : exn)
| Unmodelled.
Arguments Done {A} a.
Arguments Raised {A} e.
Arguments Unmodelled {A}.

(** [name_to_config = {config["name"]: config for config in configs}]:
    the presets are taken in order, a later one replacing an earlier one
    of the same name; a preset without a ["name"] is a [KeyError]. *)
Fixpoint register_all (hp : gmap loc (gmap string value))
    (configs : list loc) (acc : gmap string loc)
    : outcome (gmap string loc) :=
  match configs with
  | [] => Done acc
  | config :: rest =>
      match hp !! config with
      | None => Raised KeyError
      | Some d =>
          match d !! "name"%string with
          | None => Raised KeyError
          | Some (VStr n) => register_all hp rest (<[n := config]> acc)
          | Some (VDict _) => Raised TypeError   (* unhashable *)
          | Some _ => Unmodelled
          end
      end
  end.

Definition build_name_to_config (st : State) (configs : list loc)
    : outcome State :=
  match register_all (heap st) configs ∅ with
  | Done reg => Done {| heap := heap st; name_to_config := reg |}
  | Raised e => Raised e
  | Unmodelled => Unmodelled
  end.

(** [d[k] = v] on the [dict] object at [l]. *)
Definition dict_set (l : loc) (k : string) (v : value) (st : State)
    : State * result unit :=
  match heap st !! l with
  | Some d =>
      ({| heap := <[l := <[k := v]> d]> (heap st);
          name_to_config := name_to_config st |}, inr tt)
  | None => (st, inl KeyError)
  end.

(** The loop after [configs.extend(pythia)]:
    [for c in pythia: copy = c.copy();
     copy["name"] = f"{c['name']}-deduped"; configs.append(copy)]. *)
Fixpoint append_deduped (pythia configs : list loc) (st : State)
    : State * outcome (list loc) :=
  match pythia with
  | [] => (st, Done configs)
  | c :: rest =>
      match dict_copy c st with
      | (st1, inl e) => (st1, Raised e)
      | (st1, inr copy) =>
          match heap st1 !! c with
          | None => (st1, Raised KeyError)
          | Some d =>
              match d !! "name"%string with
              | None => (st1, Raised KeyError)
              | Some (VStr n) =>
                  match dict_set copy "name" (VStr (n +:+ "-deduped")) st1 with
                  | (st2, inl e) => (st2, Raised e)
                  | (st2, inr _) => append_deduped rest (configs ++ [copy]) st2
                  end
              | Some _ => (st1, Unmodelled)
              end
          end
      end
  end.

(** 1.0 and 1.3 as doubles. *)
Definition float_1_0 : spec_float := S754_finite false 4503599627370496 (-52).
Definition float_1_3 : spec_float := S754_finite false 5854679515581645 (-52).

(** The preset [TinyLlama3], the last of [configs]. *)
Definition tinyllama3 : gmap string value :=
  list_to_map
    [("org", VStr "creative_EE"); ("name", VStr "TinyLlama3");
     ("block_size", VInt 2048); ("vocab_size", VInt 128000);
     ("padded_vocab_size", VInt 128256); ("padding_multiple", VInt 64);
     ("n_layer", VInt 22); ("n_head", VInt 32); ("n_embd", VInt 2048);
     ("rotary_percentage", VFloat float_1_0);
     ("parallel_residual", VBool false); ("bias", VBool false);
     ("ffn_dim_multiplier", VFloat float_1_3);
     ("_norm_class", VStr "FusedRMSNorm"); ("norm_eps", VFloat float_1em5);
     ("_mlp_class", VStr "LLaMAMLP"); ("intermediate_size", VInt 5632);
     ("n_query_groups", VInt 4); ("condense_ratio", VInt 4);
     ("rope_base", VInt 50000); ("rope_condense_ratio", VInt 4)]%string.

(** The preset [tiny_LLaMA_1b]. *)
Definition tiny_LLaMA_1b : gmap string value :=
  list_to_map
    [("org", VStr "StatNLP-research"); ("name", VStr "tiny_LLaMA_1b");
     ("block_size", VInt 2048); ("vocab_size", VInt 32000);
     ("padding_multiple", VInt 64); ("n_layer", VInt 22);
     ("n_head", VInt 32); ("n_embd", VInt 2048);
     ("rotary_percentage", VFloat float_1_0);
     ("parallel_residual", VBool false); ("bias", VBool false);
     ("_norm_class", VStr "FusedRMSNorm"); ("norm_eps", VFloat float_1em5);
     ("_mlp_class", VStr "LLaMAMLP"); ("intermediate_size", VInt 5632);
     ("n_query_groups", VInt 4)]%string.

(** The first two presets of [pythia]. *)
Definition pythia_14m : gmap string value :=
  list_to_map
    [("org", VStr "EleutherAI"); ("name", VStr "pythia-14m");
     ("block_size", VInt 512); ("n_layer", VInt 6); ("n_embd", VInt 128);
     ("n_head", VInt 4); ("padding_multiple", VInt 128)]%string.

Definition pythia_31m : gmap string value :=
  list_to_map
    [("org", VStr "EleutherAI"); ("name", VStr "pythia-31m");
     ("block_size", VInt 1024); ("n_layer", VInt 6); ("n_embd", VInt 256);
     ("n_head", VInt 8); ("padding_multiple", VInt 128)]%string.

(** Four preset objects as the module creates them, before the registry
    exists. *)
Definition four_presets : State :=
  {| heap := {[ 0%nat := pythia_14m; 1%nat := pythia_31m;
                2%nat := tiny_LLaMA_1b; 3%nat := tinyllama3 ]};
     name_to_config := ∅ |}.

(** The same four objects with the registry built over them. *)
Definition four_presets_registered : State :=
  {| heap := heap four_presets;
     name_to_config := {[ "pythia-14m"%string := 0%nat;
                          "pythia-31m"%string := 1%nat;
                          "tiny_LLaMA_1b"%string := 2%nat;
                          "TinyLlama3"%string := 3%nat ]} |}.

End ConfigMore.

(* ===================================================================== *)
(** * Properties *)
(* ===================================================================== *)

(** ** The chunk builder *)

Section BuilderFacts.
Import PackedDataset.

Lemma same_settings_refl b : same_settings b b.
Proof. repeat split. Qed.

Lemma same_settings_trans b1 b2 b3 :
  same_settings b1 b2 -> same_settings b2 b3 -> same_settings b1 b3.
Proof. unfold same_settings. intuition congruence. Qed.

Lemma shards_from_app b i l1 l2 :
  shards_from b i l1 -> shards_from b (i + length l1) l2 ->
  shards_from b i (l1 ++ l2).
Proof.
  revert i. induction l1 as [|sh l1 IH]; simpl; intros i H1 H2.
  - now rewrite Nat.add_0_r in H2.
  - destruct H1 as [Hs H1]. split; [exact Hs|].
    apply IH; [exact H1|]. now rewrite Nat.add_succ_comm.
Qed.

Lemma shards_from_settings b b' i l :
  same_settings b b' -> shards_from b' i l -> shards_from b i l.
Proof.
  intros (_ & Hp & Hc & Hd & _). revert i.
  induction l as [|sh l IH]; simpl; [trivial|].
  intros i [(H1 & H2 & H3 & H4 & H5) Hr]. split; [|now apply IH].
  unfold shard_of. rewrite <- Hp, <- Hc, <- Hd. repeat split; assumption.
Qed.

Lemma shards_from_lengths b i l :
  shards_from b i l ->
  Forall (fun sh => Z.of_nat (length (shard_body sh)) = chunk_size b) l.
Proof.
  revert i. induction l as [|sh l IH]; simpl; intros i H; constructor.
  - apply H.
  - apply (IH (S i)), H.
Qed.

Lemma shards_from_names b i l :
  shards_from b i l ->
  map shard_name l = map (shard_filename (prefix b)) (seq i (length l)).
Proof.
  revert i. induction l as [|sh l IH]; simpl; intros i H; [reflexivity|].
  destruct H as [(Hn & _) Hr]. f_equal; [exact Hn | now apply IH].
Qed.

Lemma bodies_length b i l :
  shards_from b i l ->
  Z.of_nat (length (bodies l)) = chunk_size b * Z.of_nat (length l).
Proof.
  revert i. unfold bodies.
  induction l as [|sh l IH]; simpl; intros i H; [lia|].
  destruct H as [(_ & _ & _ & _ & Hl) Hr].
  rewrite length_app, Nat2Z.inj_add, (IH _ Hr), Hl. lia.
Qed.

Lemma bodies_app l1 l2 : bodies (l1 ++ l2) = bodies l1 ++ bodies l2.
Proof. unfold bodies. now rewrite map_app, concat_app. Qed.

(** The flushing loop ends within one turn per token held, writes whole
    chunks taken from the front of the buffer, and leaves less than a
    chunk behind. *)
Lemma flush_spec fuel : forall b disk,
  0 < chunk_size b ->
  (length (buffer b) < fuel)%nat ->
  exists b' new,
    flush fuel b disk = Some (b', disk ++ new) /\
    same_settings b b' /\
    bodies new ++ buffer b' = buffer b /\
    Z.of_nat (length (buffer b')) < chunk_size b /\
    shards_from b (shard_index b) new /\
    shard_index b' = (shard_index b + length new)%nat /\
    total_tokens_written b' =
      total_tokens_written b + chunk_size b * Z.of_nat (length new).
Proof.
  induction fuel as [|fuel IH]; intros b disk Hcs Hfuel; [lia|].
  simpl. destruct (Z.leb_spec (chunk_size b) (Z.of_nat (length (buffer b))))
    as [Hfull|Hshort].
  - assert (Hn : (0 < Z.to_nat (chunk_size b) <= length (buffer b))%nat) by lia.
    destruct (IH (after_shard b) (disk ++ [next_shard b])) as
      (b' & new & Hrun & Hset & Hbody & Hlt & Hsh & Hidx & Htot).
    + exact Hcs.
    + simpl. rewrite length_skipn. lia.
    + exists b', (next_shard b :: new). simpl in *.
      rewrite Hrun, <- app_assoc. simpl.
      split; [reflexivity|].
      split.
      { apply (same_settings_trans b (after_shard b) b'); [|exact Hset].
        repeat split. }
      split.
      { unfold bodies in *. simpl. rewrite <- app_assoc, Hbody.
        apply firstn_skipn. }
      split; [exact Hlt|].
      split.
      { split.
        - unfold shard_of. simpl. repeat split.
          rewrite length_firstn. lia.
        - apply (shards_from_settings b (after_shard b));
            [repeat split | exact Hsh]. }
      split; [lia|]. rewrite Htot. lia.
  - exists b, []. rewrite app_nil_r. simpl.
    repeat split; lia.
Qed.

Lemma append_packed b0 b disk stream tokens :
  0 < chunk_size b0 ->
  packed b0 b disk stream ->
  exists b' new,
    append b tokens disk = Some (b', disk ++ new) /\
    packed b0 b' (disk ++ new) (stream ++ sep_token b0 :: tokens).
Proof.
  intros Hcs (Hset & Hstream & Hlt & Hsh & Hidx & Htot).
  pose proof Hset as (_ & Hp & Hc & Hd & Hsep).
  unfold append.
  destruct (flush_spec (S (length (buffer (push b tokens))))
              (push b tokens) disk) as
    (b' & new & Hrun & Hset' & Hbody & Hlt' & Hsh' & Hidx' & Htot').
  - simpl. lia.
  - lia.
  - exists b', new. split; [exact Hrun|]. simpl in *.
    assert (Hs2 : same_settings b0 b').
    { apply (same_settings_trans b0 b b' Hset).
      destruct Hset' as (? & ? & ? & ? & ?). repeat split; assumption. }
    split; [exact Hs2|].
    split.
    { rewrite bodies_app, <- app_assoc, Hbody, app_assoc, Hstream.
      now rewrite Hsep. }
    split; [lia|].
    split.
    { apply shards_from_app; [exact Hsh|]. simpl. rewrite <- Hidx.
      apply (shards_from_settings b0 (push b tokens)); [|exact Hsh'].
      destruct Hset as (? & ? & ? & ? & ?). repeat split; assumption. }
    split; [rewrite length_app; lia|].
    rewrite Htot', Htot, length_app, Nat2Z.inj_add, Hc. lia.
Qed.

Lemma append_all_packed b0 docs : forall b disk stream,
  0 < chunk_size b0 ->
  packed b0 b disk stream ->
  exists b' new,
    append_all b docs disk = Some (b', disk ++ new) /\
    packed b0 b' (disk ++ new)
      (stream ++ interleaved (sep_token b0) docs).
Proof.
  induction docs as [|d docs IH]; intros b disk stream Hcs Hp.
  - exists b, []. simpl. unfold interleaved. simpl.
    now rewrite !app_nil_r.
  - destruct (append_packed b0 b disk stream d Hcs Hp)
      as (b1 & new1 & Hrun1 & Hp1).
    destruct (IH b1 (disk ++ new1) _ Hcs Hp1) as (b2 & new2 & Hrun2 & Hp2).
    exists b2, (new1 ++ new2). simpl. rewrite Hrun1, Hrun2.
    rewrite app_assoc. split; [reflexivity|].
    unfold interleaved in *. simpl.
    replace (stream ++ sep_token b0 :: d ++
               concat (map (fun d0 => sep_token b0 :: d0) docs))
      with ((stream ++ sep_token b0 :: d) ++
               concat (map (fun d0 => sep_token b0 :: d0) docs)).
    + exact Hp2.
    + now rewrite <- app_assoc.
Qed.

(** From the invariant to counts and positions in the stream. *)
Lemma packed_counts b0 b disk stream :
  0 < chunk_size b0 ->
  packed b0 b disk stream ->
  let T := Z.of_nat (length stream) in
  let cs := chunk_size b0 in
  Z.of_nat (length disk) = T / cs /\
  Z.of_nat (length (buffer b)) = T mod cs /\
  bodies disk = firstn (Z.to_nat (T / cs * cs)) stream /\
  buffer b = skipn (Z.to_nat (T / cs * cs)) stream.
Proof.
  intros Hcs (Hset & Hstream & Hlt & Hsh & Hidx & Htot) T cs.
  pose proof (bodies_length b0 0 disk Hsh) as Hbl.
  assert (HT : T = cs * Z.of_nat (length disk)
                   + Z.of_nat (length (buffer b))).
  { unfold T. rewrite <- Hstream, length_app, Nat2Z.inj_add, Hbl.
    reflexivity. }
  assert (Hq : Z.of_nat (length disk) = T / cs).
  { apply (Z.div_unique_pos T cs _ (Z.of_nat (length (buffer b)))); lia. }
  assert (Hr : Z.of_nat (length (buffer b)) = T mod cs).
  { apply (Z.mod_unique_pos T cs (Z.of_nat (length disk))); lia. }
  assert (Hk : Z.to_nat (T / cs * cs) = length (bodies disk)).
  { rewrite <- Hq. fold cs in Hbl. lia. }
  repeat split; try assumption.
  - rewrite Hk, <- Hstream. rewrite firstn_app, Nat.sub_diag, firstn_all.
    simpl. now rewrite app_nil_r.
  - rewrite Hk, <- Hstream. rewrite skipn_app, Nat.sub_diag, skipn_all.
    reflexivity.
Qed.

Lemma new_packed dir_ok dest pfx cs sep vocab dt b0 :
  new dir_ok dest pfx cs sep vocab dt = inr b0 ->
  0 < chunk_size b0 /\ chunk_size b0 = cs /\ prefix b0 = pfx /\
  sep_token b0 = sep /\ packed b0 b0 [] [].
Proof.
  unfold new. destruct (Z.leb_spec cs 0); [discriminate|].
  destruct (negb dir_ok); [discriminate|].
  intros H0. injection H0 as <-. simpl.
  repeat split; simpl; try lia.
Qed.

End BuilderFacts.

Section BuilderClaims.
Import PackedDataset.

(** The width of a token on disk for the two vocabularies the
    specification names. *)
Example dtype_width_examples :
  select_width DtAuto 32000 = 2 /\ select_width DtAuto 128256 = 4.
Proof. split; reflexivity. Qed.

(** The end-to-end example of the specification: documents [5,6,7], [8]
    and [9,10], separator 1, chunks of 4.  Two shards are written,
    [1,5,6,7] and [1,8,1,9], and [10] stays behind. *)
Example end_to_end_example :
  match new true "out" "train_wudao_0" 4 1 32000 DtAuto with
  | inr b0 =>
      match append_all b0 [[5; 6; 7]; [8]; [9; 10]] [] with
      | Some (b, disk) =>
          map shard_body disk = [[1; 5; 6; 7]; [1; 8; 1; 9]] /\
          map shard_name disk = ["train_wudao_0_0000000000.bin"%string;
                                 "train_wudao_0_0000000001.bin"%string] /\
          buffer b = [10] /\
          snd (fst (finalize b disk)) = disk
      | None => False
      end
  | inl _ => False
  end.
Proof. vm_compute. repeat split. Qed.

(** C1.  A builder that was constructed, fed any sequence of documents by
    [append], one separator before each: with [T] the length of the
    separator-interleaved stream, the appends end, exactly [T / chunkSize]
    shard files exist, named by the indices 0, 1, ... in the order
    written, each body holds exactly [chunkSize] tokens, the bodies in
    that order are the first [(T / chunkSize) * chunkSize] tokens of the
    stream, the buffer holds the remaining [T mod chunkSize] tokens, and
    [finalize] empties the buffer and writes nothing. *)
Theorem builder_emits_whole_chunks
    (dir_ok : bool) (dest pfx : string) (cs sep vocab : Z)
    (dt : dtype_choice) (b0 : BuilderState) (docs : list (list Z)) :
  new dir_ok dest pfx cs sep vocab dt = inr b0 ->
  let stream := interleaved sep docs in
  let T := Z.of_nat (length stream) in
  exists b disk,
    append_all b0 docs [] = Some (b, disk) /\
    Z.of_nat (length disk) = T / cs /\
    Forall (fun sh => Z.of_nat (length (shard_body sh)) = cs) disk /\
    map shard_name disk = map (shard_filename pfx) (seq 0 (length disk)) /\
    bodies disk = firstn (Z.to_nat (T / cs * cs)) stream /\
    buffer b = skipn (Z.to_nat (T / cs * cs)) stream /\
    Z.of_nat (length (buffer b)) = T mod cs /\
    snd (fst (finalize b disk)) = disk /\
    buffer (fst (fst (finalize b disk))) = [].
Proof.
  intros Hnew stream T.
  destruct (new_packed _ _ _ _ _ _ _ _ Hnew)
    as (Hpos & Hcs & Hpfx & Hsep & Hp0).
  destruct (append_all_packed b0 docs b0 [] [] Hpos Hp0)
    as (b & disk & Hrun & Hp).
  simpl in Hrun, Hp. rewrite Hsep in Hp. fold stream in Hp.
  exists b, disk. split; [exact Hrun|].
  destruct (packed_counts b0 b disk stream Hpos Hp) as (Hq & Hr & Hf & Hs).
  rewrite Hcs in Hq, Hr, Hf, Hs. fold T in Hq, Hr, Hf, Hs.
  destruct Hp as (_ & _ & _ & Hsh & _).
  split; [exact Hq|].
  split; [rewrite <- Hcs; exact (shards_from_lengths b0 0 disk Hsh)|].
  split; [rewrite <- Hpfx; exact (shards_from_names b0 0 disk Hsh)|].
  repeat split; assumption.
Qed.

Lemma builder_emits_whole_chunks_witness :
  exists b disk,
    append_all (mkBuilder "out" "train_wudao_0" 4 [] 0 2 1 0)
      [[5; 6; 7]; [8]; [9; 10]] [] = Some (b, disk) /\
    Z.of_nat (length disk) = 9 / 4 /\
    bodies disk = [1; 5; 6; 7; 1; 8; 1; 9] /\
    buffer b = [10].
Proof.
  destruct (builder_emits_whole_chunks true "out" "train_wudao_0" 4 1 32000
              DtAuto (mkBuilder "out" "train_wudao_0" 4 [] 0 2 1 0)
              [[5; 6; 7]; [8]; [9; 10]] eq_refl)
    as (b & disk & Hrun & Hn & _ & _ & Hb & Hbuf & _).
  exists b, disk. repeat split; assumption.
Defined.

End BuilderClaims.

(** ** [numpy.array_split] *)

Section SplitFacts.
Import Py Numpy.
Context {A : Type}.

Lemma firstn_plus (a b : nat) (l : list A) :
  firstn (a + b) l = firstn a l ++ firstn b (skipn a l).
Proof.
  revert l. induction a as [|a IH]; intros l; [reflexivity|].
  destruct l as [|x l]; simpl.
  - now rewrite firstn_nil.
  - now rewrite IH.
Qed.

Lemma section_sizes_length (t n : nat) :
  (0 < n)%nat -> length (section_sizes t n) = n.
Proof.
  intros Hn. unfold section_sizes.
  rewrite length_app, !repeat_length.
  pose proof (Nat.mod_upper_bound t n). lia.
Qed.

Lemma list_sum_repeat (x k : nat) : list_sum (repeat x k) = (k * x)%nat.
Proof. induction k as [|k IH]; simpl; [reflexivity|]. now rewrite IH. Qed.

Lemma section_sizes_sum (t n : nat) :
  (0 < n)%nat -> list_sum (section_sizes t n) = t.
Proof.
  intros Hn. unfold section_sizes.
  rewrite list_sum_app, !list_sum_repeat.
  pose proof (Nat.mod_upper_bound t n ltac:(lia)) as Hr.
  pose proof (Nat.div_mod_eq t n) as Hd.
  nia.
Qed.

(** The size of section [k]: the first [t mod n] sections have one more. *)
Lemma section_sizes_at (t n k : nat) :
  (k < n)%nat ->
  nth k (section_sizes t n) 0%nat
  = if (k <? t mod n)%nat then S (t / n) else (t / n)%nat.
Proof.
  intros Hk. unfold section_sizes.
  pose proof (Nat.mod_upper_bound t n ltac:(lia)) as Hr.
  destruct (Nat.ltb_spec k (t mod n)) as [Hlt|Hge].
  - rewrite app_nth1 by (rewrite repeat_length; lia).
    apply nth_repeat_lt. lia.
  - rewrite app_nth2 by (rewrite repeat_length; lia).
    rewrite repeat_length. apply nth_repeat_lt. lia.
Qed.

(** The sections laid end to end are the part of the array they span. *)
Lemma sub_arys_concat (sizes : list nat) : forall (st : nat) (ary : list A),
  concat (sub_arys st sizes ary) = firstn (list_sum sizes) (skipn st ary).
Proof.
  induction sizes as [|n sizes IH]; intros st ary; simpl; [reflexivity|].
  rewrite IH. unfold slice.
  replace (st + n - st)%nat with n by lia.
  rewrite firstn_plus, skipn_skipn. now rewrite (Nat.add_comm n st).
Qed.

Lemma sub_arys_lengths (sizes : list nat) : forall (st : nat) (ary : list A),
  (st + list_sum sizes <= length ary)%nat ->
  map (@length A) (sub_arys st sizes ary) = sizes.
Proof.
  induction sizes as [|n sizes IH]; intros st ary Hlen; simpl in *;
    [reflexivity|].
  f_equal.
  - unfold slice. rewrite length_firstn, length_skipn. lia.
  - apply IH. lia.
Qed.

Lemma sub_arys_length (sizes : list nat) (st : nat) (ary : list A) :
  length (sub_arys st sizes ary) = length sizes.
Proof. revert st. induction sizes; simpl; intros; [|rewrite IHsizes]; reflexivity. Qed.

(** [array_split] with a positive number of sections. *)
Lemma array_split_spec (ary : list A) (n : Z) :
  0 < n ->
  exists groups,
    array_split ary n = inr groups /\
    length groups = Z.to_nat n /\
    concat groups = ary /\
    map (@length A) groups = section_sizes (length ary) (Z.to_nat n).
Proof.
  intros Hn. unfold array_split.
  destruct (Z.leb_spec n 0); [lia|].
  eexists. split; [reflexivity|].
  assert (Hpos : (0 < Z.to_nat n)%nat) by lia.
  split; [|split].
  - rewrite sub_arys_length. now apply section_sizes_length.
  - rewrite sub_arys_concat, section_sizes_sum by exact Hpos.
    simpl. apply firstn_all.
  - apply sub_arys_lengths. rewrite section_sizes_sum by exact Hpos. lia.
Qed.

End SplitFacts.

(** ** The worker [prepare_full] *)

Section WorkerFacts.
Import Py PackedDataset PrepareWudao.

Lemma writes_of_app l1 l2 : writes_of (l1 ++ l2) = writes_of l1 ++ writes_of l2.
Proof. unfold writes_of. apply flat_map_app. Qed.

Lemma writes_of_writes l : writes_of (map EvWrite l) = l.
Proof. induction l as [|sh l IH]; simpl; [reflexivity|]. now rewrite IH. Qed.

Lemma interleaved_app sep d1 d2 :
  interleaved sep (d1 ++ d2) = interleaved sep d1 ++ interleaved sep d2.
Proof. unfold interleaved. now rewrite map_app, concat_app. Qed.

(** The files already on disk play no part in the flushing loop. *)
Lemma flush_disk fuel : forall b disk,
  flush fuel b disk =
  match flush fuel b [] with
  | Some (b', new) => Some (b', disk ++ new)
  | None => None
  end.
Proof.
  induction fuel as [|fuel IH]; intros b disk; simpl; [reflexivity|].
  destruct (chunk_size b <=? Z.of_nat (length (buffer b))).
  - rewrite (IH _ (disk ++ [next_shard b])), (IH _ [next_shard b]).
    destruct (flush fuel (after_shard b) []) as [[b' new]|];
      [|reflexivity].
    now rewrite <- app_assoc.
  - now rewrite app_nil_r.
Qed.

Lemma add_array_packed b0 b disk stream tokens :
  0 < chunk_size b0 ->
  packed b0 b disk stream ->
  exists b' new,
    add_array b tokens = (map EvWrite new, inr b') /\
    packed b0 b' (disk ++ new) (stream ++ sep_token b0 :: tokens).
Proof.
  intros Hcs Hp.
  destruct (append_packed b0 b disk stream tokens Hcs Hp)
    as (b' & new & Hrun & Hp').
  exists b', new. split; [|exact Hp'].
  unfold add_array. unfold append in *. rewrite flush_disk in Hrun.
  destruct (flush _ (push b tokens) []) as [[b1 new1]|]; [|discriminate].
  injection Hrun as -> Hnew. apply app_inv_head in Hnew. now subst.
Qed.

Lemma add_rows_packed tok b0 texts : forall docs b disk stream,
  0 < chunk_size b0 ->
  packed b0 b disk stream ->
  contents texts = Some docs ->
  exists b' log,
    add_rows tok b texts = (log, inr b') /\
    packed b0 b' (disk ++ writes_of log)
      (stream ++ interleaved (sep_token b0) (map (encode tok) docs)).
Proof.
  induction texts as [|row texts IH]; intros docs b disk stream Hcs Hp Hc.
  - injection Hc as <-. exists b, []. simpl.
    unfold interleaved. simpl. now rewrite !app_nil_r.
  - simpl in Hc. destruct row as [c|]; [|discriminate].
    destruct (contents texts) as [docs'|] eqn:Hc'; [|discriminate].
    injection Hc as <-.
    destruct (add_array_packed b0 b disk stream (encode tok c) Hcs Hp)
      as (b1 & new1 & Hrun1 & Hp1).
    destruct (IH docs' b1 _ _ Hcs Hp1 eq_refl) as (b2 & log2 & Hrun2 & Hp2).
    exists b2, (map EvWrite new1 ++ log2). split.
    + simpl. rewrite Hrun1. simpl. now rewrite Hrun2.
    + rewrite writes_of_app, writes_of_writes, app_assoc.
      change (map (encode tok) (c :: docs'))
        with ([encode tok c] ++ map (encode tok) docs').
      rewrite interleaved_app, app_assoc.
      unfold interleaved at 1. simpl. rewrite app_nil_r. exact Hp2.
Qed.

Lemma process_files_packed w tok b0 filenames : forall docs b disk stream,
  0 < chunk_size b0 ->
  packed b0 b disk stream ->
  corpus w filenames = Some docs ->
  exists b' log,
    process_files w tok b filenames = (log, inr b') /\
    packed b0 b' (disk ++ writes_of log)
      (stream ++ interleaved (sep_token b0) (map (encode tok) docs)).
Proof.
  induction filenames as [|f filenames IH];
    intros docs b disk stream Hcs Hp Hc.
  - injection Hc as <-. exists b, []. simpl.
    unfold interleaved. simpl. now rewrite !app_nil_r.
  - simpl in Hc.
    destruct (json_load w f) as [texts| |] eqn:Hload; try discriminate.
    destruct (contents texts) as [cs|] eqn:Hcs'; [|discriminate].
    destruct (corpus w filenames) as [more|] eqn:Hmore; [|discriminate].
    injection Hc as <-.
    destruct (add_rows_packed tok b0 texts cs b disk stream Hcs Hp Hcs')
      as (b1 & log1 & Hrun1 & Hp1).
    destruct (IH more b1 _ _ Hcs Hp1 eq_refl) as (b2 & log2 & Hrun2 & Hp2).
    exists b2, (EvPrint ("Processing " +:+ f) :: EvOpen f :: log1 ++ log2).
    split.
    + simpl. rewrite Hload. simpl. rewrite Hrun1. simpl. now rewrite Hrun2.
    + change (EvPrint ("Processing " +:+ f) :: EvOpen f :: log1 ++ log2)
        with ([EvPrint ("Processing " +:+ f); EvOpen f] ++ log1 ++ log2).
      rewrite !writes_of_app. simpl.
      rewrite map_app, interleaved_app, !app_assoc. exact Hp2.
Qed.

End WorkerFacts.

Section WorkerClaims.
Import Py PackedDataset PrepareWudao.

(** C6.  A worker whose directory and tokenizer are available, whose
    group is not empty and whose files all load, with a positive chunk
    size: it returns normally; with [T] the length of the
    separator-interleaved token stream of its documents, it has written
    exactly [T / chunk_size] shard files, every one a full chunk, their
    bodies being the first [(T / chunk_size) * chunk_size] tokens of the
    stream with nothing added; the [T mod chunk_size] tokens left, fewer
    than [chunk_size], are in the buffer of the builder that the function
    abandons, and in no file. *)
Theorem worker_discards_remainder
    (w : World) (src tokp dest : string) (cs : Z) (split : string)
    (files : list string) (pid : nat) (tok : Tokenizer)
    (docs : list string) :
  mkdir_ok w dest = true ->
  load_tokenizer w tokp = Some tok ->
  files <> [] ->
  corpus w files = Some docs ->
  0 < cs ->
  let stream := interleaved (bos_id tok) (map (encode tok) docs) in
  let T := Z.of_nat (length stream) in
  exists log b,
    prepare_full w src tokp dest cs split (Some files) pid = (log, inr b) /\
    Z.of_nat (length (writes_of log)) = T / cs /\
    Forall (fun sh => Z.of_nat (length (shard_body sh)) = cs)
      (writes_of log) /\
    bodies (writes_of log) = firstn (Z.to_nat (T / cs * cs)) stream /\
    buffer b = skipn (Z.to_nat (T / cs * cs)) stream /\
    Z.of_nat (length (buffer b)) = T mod cs /\
    T mod cs < cs.
Proof.
  intros Hdir Htok Hne Hdocs Hcs stream T.
  destruct files as [|f files]; [congruence|].
  destruct (new true dest (builder_prefix split pid) cs (bos_id tok)
              (vocab_size tok) DtAuto) as [e|b0] eqn:Hnew.
  { unfold new in Hnew. destruct (Z.leb_spec cs 0); [lia|discriminate]. }
  destruct (new_packed _ _ _ _ _ _ _ _ Hnew)
    as (Hpos & Hcs0 & Hpfx & Hsep & Hp0).
  destruct (process_files_packed w tok b0 (f :: files) docs b0 [] []
              Hpos Hp0 Hdocs) as (b & log & Hrun & Hp).
  simpl app in Hp. rewrite Hsep in Hp. fold stream in Hp.
  exists ([EvMkdir dest; EvTokenizer tokp;
           EvBuilder (builder_prefix split pid)] ++ log), b.
  split.
  { unfold prepare_full. rewrite Hdir, Htok. simpl bind.
    rewrite Hnew. simpl. simpl in Hrun. rewrite Hrun. reflexivity. }
  rewrite writes_of_app. simpl app.
  destruct (packed_counts b0 b _ stream Hpos Hp) as (Hq & Hr & Hf & Hs).
  rewrite Hcs0 in Hq, Hr, Hf, Hs. fold T in Hq, Hr, Hf, Hs.
  destruct Hp as (_ & _ & _ & Hsh & _).
  split; [exact Hq|].
  split; [rewrite <- Hcs0; exact (shards_from_lengths b0 0 _ Hsh)|].
  repeat split; try assumption.
  apply Z.mod_pos_bound. exact Hcs.
Qed.

End WorkerClaims.

(** ** Names: prefixes and shard file names *)

Section NameFacts.
Import PyStr PackedDataset PrepareWudao.












End NameFacts.

Section WorkerNames.
Import Py PyStr PackedDataset PrepareWudao.



Lemma add_rows_cons tok b c texts :
  add_rows tok b (Some c :: texts) =
  match add_array b (encode tok c) with
  | (l1, inl e) => (l1, inl e)
  | (l1, inr b1) =>
      let '(l2, r) := add_rows tok b1 texts in (l1 ++ l2, r)
  end.
Proof.
  simpl. destruct (add_array b (encode tok c)) as [l1 [e|b1]]; simpl;
    [reflexivity|].
  now destruct (add_rows tok b1 texts).
Qed.

Lemma process_files_cons w tok b f filenames :
  process_files w tok b (f :: filenames) =
  match json_load w f with
  | Rows texts =>
      match add_rows tok b texts with
      | (l1, inl e) =>
          ([EvPrint ("Processing " +:+ f); EvOpen f] ++ l1, inl e)
      | (l1, inr b1) =>
          let '(l2, r) := process_files w tok b1 filenames in
          ([EvPrint ("Processing " +:+ f); EvOpen f] ++ l1 ++ l2, r)
      end
  | NotOpened => ([EvPrint ("Processing " +:+ f); EvOpen f], inl OSError)
  | NotParsed => ([EvPrint ("Processing " +:+ f); EvOpen f], inl ValueError)
  end.
Proof.
  simpl. destruct (json_load w f) as [texts| |]; simpl; try reflexivity.
  destruct (add_rows tok b texts) as [l1 [e|b1]]; simpl; [reflexivity|].
  now destruct (process_files w tok b1 filenames).
Qed.





(** The log of a worker that stops at its check for an empty group. *)
Lemma setup_only w src tokp dest cs split pid (group : option (list string)) :
  group = None \/ group = Some [] ->
  exists e,
    snd (prepare_full w src tokp dest cs split group pid) = inl e /\
    (e = RuntimeError \/ e = KeyError \/ e = OSError) /\
    exists k, fst (prepare_full w src tokp dest cs split group pid)
              = firstn k [EvMkdir dest; EvTokenizer tokp].
Proof.
  intros Hg.
  destruct Hg as [-> | ->];
    unfold prepare_full, lift, wudao_sets, of_option;
    destruct (mkdir_ok w dest), (load_tokenizer w tokp) as [tok|],
      (String.eqb split "train"); simpl;
    eexists; (split; [reflexivity|]); (split; [tauto|]);
    first [now exists 2%nat | now exists 1%nat].
Qed.




End WorkerNames.

Section NameClaims.
Import Py PyStr PackedDataset PrepareWudao.

Example builder_prefix_example :
  builder_prefix "train" 3 = "train_wudao_3"%string /\
  shard_filename (builder_prefix "train" 3) 12
  = "train_wudao_3_0000000012.bin"%string.
Proof. split; reflexivity. Qed.



(** What the two workers of the toy world write with chunks of two: the
    names are the prefix of each with the indices from 0. *)
Example toy_workers_filenames :
  map shard_name
    (written (prepare_full toy_world "data" "tok.model" "out" 2 "train"
                (Some ["a.json"%string]) 0))
  = ["train_wudao_0_0000000000.bin"; "train_wudao_0_0000000001.bin"]%string /\
  map shard_name
    (written (prepare_full toy_world "data" "tok.model" "out" 2 "train"
                (Some ["b.json"%string]) 1))
  = ["train_wudao_1_0000000000.bin"%string].
Proof. vm_compute. split; reflexivity. Qed.

(** The toy world's first worker on both files with chunks of three:
    the stream has eight tokens, so two shards and two tokens over. *)
Example toy_worker_example :
  let run := prepare_full toy_world "data" "tok.model" "out" 3 "train"
               (Some ["a.json"; "b.json"]%string) 0 in
  map shard_body (written run) = [[1; 97; 98]; [1; 99; 1]] /\
  option_map buffer (match snd run with inr b => Some b | inl _ => None end)
  = Some [100; 101].
Proof. vm_compute. split; reflexivity. Qed.

Lemma worker_discards_remainder_witness :
  exists log b,
    prepare_full toy_world "data" "tok.model" "out" 3 "train"
      (Some ["a.json"; "b.json"]%string) 0 = (log, inr b) /\
    Z.of_nat (length (writes_of log)) = 8 / 3 /\
    Z.of_nat (length (buffer b)) = 8 mod 3.
Proof.
  destruct (worker_discards_remainder toy_world "data" "tok.model" "out" 3
              "train" ["a.json"; "b.json"]%string 0 toy_tokenizer
              ["ab"; "c"; "de"]%string
              eq_refl eq_refl ltac:(discriminate) eq_refl ltac:(lia))
    as (log & b & Hrun & Hn & _ & _ & _ & Hr & _).
  exists log, b. repeat split; assumption.
Defined.

End NameClaims.

(** ** The orchestrator [prepare] *)

Section OrchestratorFacts.
Import Py PackedDataset PrepareWudao.

Lemma enumerate_snd {A} (l : list A) : forall i,
  map snd (enumerate i l) = l.
Proof. induction l as [|x l IH]; intros i; simpl; [|rewrite IH]; reflexivity. Qed.

Lemma enumerate_fst {A} (l : list A) : forall i,
  map fst (enumerate i l) = seq i (length l).
Proof. induction l as [|x l IH]; intros i; simpl; [|rewrite IH]; reflexivity. Qed.

Lemma enumerate_length {A} (l : list A) i :
  length (enumerate i l) = length l.
Proof. now rewrite <- (length_map fst), enumerate_fst, length_seq. Qed.

Lemma enumerate_nth {A} (l : list A) (d : A) : forall i k,
  (k < length l)%nat ->
  nth k (enumerate i l) (O, d) = ((i + k)%nat, nth k l d).
Proof.
  induction l as [|x l IH]; intros i k Hk; simpl in *; [lia|].
  destruct k as [|k]; [now rewrite Nat.add_0_r|].
  rewrite IH by lia. f_equal. lia.
Qed.

Lemma started_run_events files groups :
  flat_map (fun ev => match ev with
                      | OStart _ subset => [subset]
                      | _ => []
                      end) (run_events files groups) = groups.
Proof.
  unfold run_events. simpl. rewrite !flat_map_app. simpl.
  assert (H1 : forall l : list (nat * list string),
            flat_map (fun ev => match ev with
                                | OStart _ subset => [subset]
                                | _ => []
                                end)
              (map (fun p => OStart (fst p) (snd p)) l) = map snd l).
  { induction l as [|p l IH]; simpl; [|rewrite IH]; reflexivity. }
  assert (H2 : forall l : list (nat * list string),
            flat_map (fun ev => match ev with
                                | OStart _ subset => [subset]
                                | _ => []
                                end)
              (map (fun p => OJoin (fst p)) l) = []).
  { induction l as [|p l IH]; simpl; [reflexivity|exact IH]. }
  now rewrite H1, H2, app_nil_r, enumerate_snd.
Qed.

(** [prepare], once the sample is taken and the machine has a CPU. *)
Lemma prepare_run w src tokp dest cs pct files :
  sample (glob_glob w (path_join src "./*")) pct = inr files ->
  0 < cpu_count w ->
  exists groups,
    Numpy.array_split files (cpu_count w) = inr groups /\
    length groups = Z.to_nat (cpu_count w) /\
    concat groups = files /\
    map (@length string) groups
    = Numpy.section_sizes (length files) (Z.to_nat (cpu_count w)) /\
    prepare w src tokp dest cs "train" pct =
    {| orch_events := run_events files groups;
       workers := map (fun p => prepare_full w src tokp dest cs "train"
                                  (Some (snd p)) (fst p))
                    (enumerate 0 groups);
       outcome := inr tt |}.
Proof.
  intros Hs Hcpu.
  destruct (array_split_spec files (cpu_count w) Hcpu)
    as (groups & Hsplit & Hlen & Hcat & Hsizes).
  exists groups. repeat split; try assumption.
  unfold prepare.
  change (wudao_sets "train") with (@inr exn string "./*").
  cbv iota beta. rewrite Hs, Hsplit. reflexivity.
Qed.

Lemma started_prepare w src tokp dest cs pct files :
  sample (glob_glob w (path_join src "./*")) pct = inr files ->
  0 < cpu_count w ->
  concat (started (prepare w src tokp dest cs "train" pct)) = files.
Proof.
  intros Hs Hcpu.
  destruct (prepare_run w src tokp dest cs pct files Hs Hcpu)
    as (groups & _ & _ & Hcat & _ & Hrun).
  rewrite Hrun. unfold started. cbn [orch_events].
  now rewrite started_run_events.
Qed.

Lemma empty_group_raises w src tokp dest cs pid tok :
  mkdir_ok w dest = true ->
  load_tokenizer w tokp = Some tok ->
  prepare_full w src tokp dest cs "train" (Some []) pid
  = ([EvMkdir dest; EvTokenizer tokp], inl RuntimeError).
Proof. intros H1 H2. unfold prepare_full. now rewrite H1, H2. Qed.

End OrchestratorFacts.

(** ** Sampling: [int(len(filenames) * percentage)] *)

Section SampleFacts.
Import Py PyFloat PrepareWudao.

(** On a double that is not negative, [int] is the floor. *)
Lemma floor_to_int (x : spec_float) (k : Z) :
  floor x = Some k -> 0 <= k -> to_int x = inr k.
Proof.
  unfold floor, floor_frac, exact, to_int.
  destruct x as [s|s| |s m e]; cbn [option_map fst snd]; try discriminate.
  - intros [= <-] _. reflexivity.
  - destruct e as [|p|p]; cbn [option_map fst snd]; intros [= <-] Hk; f_equal.
    + now rewrite Z.shiftl_0_r, Z.pow_0_r, Z.mul_1_r, Z.div_1_r.
    + rewrite Z.shiftl_mul_pow2, Z.div_1_r by lia.
      destruct s; cbn [cond_Zopp]; ring.
    + change (Z.shiftl (Z.pos m) (Z.neg p))
        with (Z.shiftr (Z.pos m) (Z.pos p)).
      rewrite Z.shiftr_div_pow2, Pos2Z.inj_pow by lia.
      rewrite Pos2Z.inj_pow in Hk.
      destruct s; cbn [cond_Zopp] in *; [exfalso|reflexivity].
      assert (- Z.pos m / 2 ^ Z.pos p < 0); [|lia].
      apply Z.div_lt_upper_bound; lia.
Qed.

Lemma slice_to_nonneg {A} (l : list A) (k : Z) :
  0 <= k -> slice_to l k = firstn (Z.to_nat k) l.
Proof. intros Hk. unfold slice_to. now destruct (Z.leb_spec 0 k); [|lia]. Qed.

(** The sample taken when the double product is finite and not
    negative. *)
Lemma sample_nonneg (filenames : list string) (pct x : spec_float) (k : Z) :
  int_mul (Z.of_nat (length filenames)) pct = inr x ->
  floor x = Some k -> 0 <= k ->
  sample filenames pct = inr (firstn (Z.to_nat k) filenames).
Proof.
  intros Hx Hf Hk. unfold sample. rewrite Hx. simpl.
  rewrite (floor_to_int x k Hf Hk). simpl.
  now rewrite slice_to_nonneg.
Qed.

End SampleFacts.

Section OrchestratorClaims.
Import Py PackedDataset PrepareWudao.

(** The example of the specification: eleven files on four CPUs. *)
Example eleven_files_four_workers :
  let groups := started (prepare (toy_world_with eleven_files 4) "data"
                           "tok.model" "out" 4 "train" float_1) in
  map (@length string) groups = [3; 3; 3; 2]%nat /\
  concat groups = eleven_files.
Proof. vm_compute. split; reflexivity. Qed.

(** C4.  Whatever list of files is left after sampling and whatever the
    (positive) number of CPUs, the groups handed to the processes, in the
    order the processes are started, are as many as there are CPUs, laid
    end to end they are the file list itself, in order, and their sizes
    add up to its length. *)
Theorem orchestrator_partition
    (w : World) (src tokp dest : string) (cs : Z) (pct : spec_float)
    (files : list string) :
  sample (glob_glob w (path_join src "./*")) pct = inr files ->
  0 < cpu_count w ->
  let groups := started (prepare w src tokp dest cs "train" pct) in
  length groups = Z.to_nat (cpu_count w) /\
  concat groups = files /\
  list_sum (map (@length string) groups) = length files.
Proof.
  intros Hs Hcpu.
  destruct (prepare_run w src tokp dest cs pct files Hs Hcpu)
    as (groups & _ & Hlen & Hcat & Hsizes & Hrun).
  rewrite Hrun. unfold started. cbn [orch_events].
  rewrite started_run_events.
  split; [exact Hlen|]. split; [exact Hcat|].
  rewrite Hsizes. apply section_sizes_sum. lia.
Qed.

Lemma orchestrator_partition_witness :
  let groups := started (prepare (toy_world_with eleven_files 4) "data"
                           "tok.model" "out" 4 "train" float_1) in
  length groups = 4%nat /\ concat groups = eleven_files /\
  list_sum (map (@length string) groups) = 11%nat.
Proof.
  exact (orchestrator_partition (toy_world_with eleven_files 4) "data"
           "tok.model" "out" 4 float_1 eleven_files eq_refl eq_refl).
Defined.

(** C9.  For every file list left after sampling, on a machine with
    [n > 0] CPUs: there are exactly [n] groups, also when the files are
    fewer than [n]; their sizes are [len mod n] times [len / n + 1]
    followed by [len / n], so that a later group is never larger than an
    earlier one and never smaller by more than one; with fewer files than
    CPUs the groups from index [len] on are empty; and a process is
    started for every group, empty or not, each running [prepare_full]
    on its group with its index. *)
Theorem every_group_gets_a_process
    (w : World) (src tokp dest : string) (cs : Z) (pct : spec_float)
    (files : list string) :
  sample (glob_glob w (path_join src "./*")) pct = inr files ->
  0 < cpu_count w ->
  let r := prepare w src tokp dest cs "train" pct in
  let n := Z.to_nat (cpu_count w) in
  length (started r) = n /\
  map (@length string) (started r)
  = (repeat (S (length files / n)) (length files mod n)
     ++ repeat (length files / n) (n - length files mod n))%nat /\
  (forall i j, (i <= j < n)%nat ->
     (length (nth j (started r) []) <= length (nth i (started r) [])
        <= length (nth j (started r) []) + 1)%nat) /\
  (forall i, (length files <= i < n)%nat -> nth i (started r) [] = []) /\
  length (workers r) = n /\
  (forall i, (i < n)%nat ->
     In (OStart i (nth i (started r) [])) (orch_events r) /\
     nth_error (workers r) i
     = Some (prepare_full w src tokp dest cs "train"
               (Some (nth i (started r) [])) i)).
Proof.
  intros Hs Hcpu r n.
  destruct (prepare_run w src tokp dest cs pct files Hs Hcpu)
    as (groups & _ & Hlen & Hcat & Hsizes & Hrun).
  assert (Hst : started r = groups).
  { unfold r. rewrite Hrun. unfold started. cbn [orch_events].
    apply started_run_events. }
  assert (Hn : (0 < n)%nat) by (unfold n; lia).
  assert (Hsize : forall i, (i < n)%nat ->
            length (nth i groups []) =
            if (i <? length files mod n)%nat
            then S (length files / n) else (length files / n)%nat).
  { intros i Hi. rewrite <- (section_sizes_at (length files) n i Hi).
    fold n in Hsizes. rewrite <- Hsizes.
    change 0%nat with (length (@nil string)). now rewrite map_nth. }
  rewrite Hst. fold n in Hlen.
  split; [exact Hlen|]. split; [exact Hsizes|].
  split.
  { intros i j Hij. rewrite !Hsize by lia.
    destruct (Nat.ltb_spec i (length files mod n)),
             (Nat.ltb_spec j (length files mod n)); lia. }
  split.
  { intros i Hi. apply length_zero_iff_nil. rewrite Hsize by lia.
    rewrite Nat.mod_small, Nat.div_small by lia.
    destruct (Nat.ltb_spec i (length files)); [lia|reflexivity]. }
  unfold r. rewrite Hrun. cbn [workers orch_events].
  split; [now rewrite length_map, enumerate_length|].
  intros i Hi. split.
  - unfold run_events. right. apply in_or_app. left.
    apply in_map_iff. exists (i, nth i groups []). split; [reflexivity|].
    replace (i, nth i groups [])
      with (nth i (enumerate 0 groups) (O, []))
      by (now rewrite enumerate_nth by lia).
    apply nth_In. rewrite enumerate_length. lia.
  - rewrite nth_error_map.
    rewrite (nth_error_nth' _ (O, [])) by (rewrite enumerate_length; lia).
    now rewrite enumerate_nth by lia.
Qed.

Lemma every_group_gets_a_process_witness :
  let r := prepare (toy_world_with ["a.json"%string] 2) "data" "tok.model"
             "out" 3 "train" float_1 in
  length (started r) = 2%nat /\ nth 1 (started r) [] = [] /\
  In (OStart 1 []) (orch_events r).
Proof.
  destruct (every_group_gets_a_process (toy_world_with ["a.json"%string] 2)
              "data" "tok.model" "out" 3 float_1 ["a.json"%string]
              eq_refl eq_refl) as (Hn & _ & _ & He & _ & Hp).
  split; [exact Hn|].
  split; [exact (He 1%nat ltac:(simpl; lia))|].
  exact (proj1 (Hp 1%nat ltac:(simpl; lia))).
Defined.

End OrchestratorClaims.

Section OrchestratorCorrections.
Import Py PackedDataset PrepareWudao.

Lemma all_nil_repeat {A} (groups : list (list A)) :
  concat groups = [] -> groups = repeat [] (length groups).
Proof.
  induction groups as [|g groups IH]; simpl; [reflexivity|].
  intros H. apply app_eq_nil in H as [-> H]. now rewrite <- IH.
Qed.





(** C2, as stated, fails: with no input file and two CPUs the run ends
    normally, two processes are started, and each of them creates the
    destination directory and loads a tokenizer before it raises. *)
Lemma empty_file_list_still_runs :
  let r := prepare (toy_world_with [] 2) "data" "tok.model" "out" 3
             "train" float_1 in
  outcome r = inr tt /\
  started r = [[]; []] /\
  workers r = [([EvMkdir "out"; EvTokenizer "tok.model"], inl RuntimeError);
               ([EvMkdir "out"; EvTokenizer "tok.model"], inl RuntimeError)].
Proof. vm_compute. repeat split. Qed.

(** C2, amended.  When the list of files to process is empty, the
    orchestrator raises nothing: it starts one process per CPU, each on
    an empty group, and returns normally.  It is each worker that fails:
    it raises after asking for the destination directory and the
    tokenizer and before it constructs a builder, opens a file or writes
    a shard; with the directory and the tokenizer available the error is
    [RuntimeError]. *)
Theorem empty_file_list_fails_in_workers
    (w : World) (src tokp dest : string) (cs : Z) (pct : spec_float) :
  sample (glob_glob w (path_join src "./*")) pct = inr [] ->
  0 < cpu_count w ->
  let r := prepare w src tokp dest cs "train" pct in
  let n := Z.to_nat (cpu_count w) in
  outcome r = inr tt /\
  started r = repeat [] n /\
  length (workers r) = n /\
  forall m, In m (workers r) ->
    raised m = true /\
    (exists k, fst m = firstn k [EvMkdir dest; EvTokenizer tokp]) /\
    builders_of (fst m) = [] /\
    written m = [] /\
    (mkdir_ok w dest = true -> is_Some (load_tokenizer w tokp) ->
     m = ([EvMkdir dest; EvTokenizer tokp], inl RuntimeError)).
Proof.
  intros Hs Hcpu r n.
  destruct (prepare_run w src tokp dest cs pct [] Hs Hcpu)
    as (groups & _ & Hlen & Hcat & _ & Hrun).
  apply all_nil_repeat in Hcat. rewrite Hlen in Hcat. fold n in Hcat.
  unfold r. rewrite Hrun. unfold started. cbn [orch_events workers outcome].
  rewrite started_run_events.
  split; [reflexivity|]. split; [exact Hcat|].
  split; [rewrite length_map, enumerate_length; exact Hlen|].
  intros m Hm. apply in_map_iff in Hm as ([i g] & <- & Hin).
  assert (Hg : g = []).
  { apply (in_map snd) in Hin. rewrite enumerate_snd, Hcat in Hin.
    now apply repeat_spec in Hin. }
  subst g. cbn [fst snd].
  destruct (setup_only w src tokp dest cs "train" i (Some [])
              (or_intror eq_refl)) as (e & He & _ & k & Hk).
  split; [unfold raised; now rewrite He|].
  split; [now exists k|].
  split; [rewrite Hk; now destruct k as [|[|[|k]]]|].
  split; [unfold written; rewrite Hk; now destruct k as [|[|[|k]]]|].
  intros Hdir [tok Htok]. now apply (empty_group_raises _ _ _ _ _ _ tok).
Qed.

Lemma empty_file_list_fails_in_workers_witness :
  let r := prepare (toy_world_with [] 2) "data" "tok.model" "out" 3
             "train" float_1 in
  outcome r = inr tt /\ started r = [[]; []] /\ length (workers r) = 2%nat.
Proof.
  destruct (empty_file_list_fails_in_workers (toy_world_with [] 2) "data"
              "tok.model" "out" 3 float_1 eq_refl eq_refl)
    as (Ho & Hs & Hn & _).
  split; [exact Ho|]. split; [exact Hs|exact Hn].
Defined.

(** C3, as stated, fails: the second worker cannot open its file and
    raises, and the run ends normally all the same. *)
Lemma failed_worker_goes_unreported :
  let r := prepare (toy_world_with ["a.json"; "missing.json"]%string 2)
             "data" "tok.model" "out" 3 "train" float_1 in
  map raised (workers r) = [false; true] /\
  map snd (workers r) <> [] /\
  nth_error (map snd (workers r)) 1 = Some (inl OSError) /\
  outcome r = inr tt.
Proof. vm_compute. repeat split. discriminate. Qed.

(** C3, amended.  In every run in which at least one worker fails, the
    orchestrator still joins every process it started, in the order of
    starting, prints the elapsed time and returns normally: no worker's
    outcome reaches its result. *)
Theorem failures_are_not_aggregated
    (w : World) (src tokp dest : string) (cs : Z) (pct : spec_float)
    (files : list string) :
  sample (glob_glob w (path_join src "./*")) pct = inr files ->
  0 < cpu_count w ->
  let r := prepare w src tokp dest cs "train" pct in
  (exists m, In m (workers r) /\ raised m = true) ->
  outcome r = inr tt /\
  flat_map (fun ev => match ev with OJoin i => [i] | _ => [] end)
    (orch_events r) = seq 0 (length (workers r)) /\
  List.last (orch_events r) OPrintElapsed = OPrintElapsed.
Proof.
  intros Hs Hcpu r _.
  destruct (prepare_run w src tokp dest cs pct files Hs Hcpu)
    as (groups & _ & _ & _ & _ & Hrun).
  unfold r. rewrite Hrun. cbn [orch_events workers outcome].
  split; [reflexivity|]. unfold run_events. split.
  - assert (H1 : forall l : list (nat * list string),
              flat_map (fun ev => match ev with
                                  | OJoin i => [i] | _ => [] end)
                (map (fun p => OStart (fst p) (snd p)) l) = []).
    { induction l as [|p l IH]; simpl; [reflexivity|exact IH]. }
    assert (H2 : forall l : list (nat * list string),
              flat_map (fun ev => match ev with
                                  | OJoin i => [i] | _ => [] end)
                (map (fun p => OJoin (fst p)) l) = map fst l).
    { induction l as [|p l IH]; simpl; [|rewrite IH]; reflexivity. }
    cbn [flat_map app]. rewrite !flat_map_app, H1, H2.
    rewrite length_map, enumerate_length, enumerate_fst.
    simpl. now rewrite app_nil_r.
  - change (OPrintCount (length files)
            :: map (fun p => OStart (fst p) (snd p)) (enumerate 0 groups)
            ++ map (fun p => OJoin (fst p)) (enumerate 0 groups)
            ++ [OPrintElapsed])
      with ((OPrintCount (length files)
             :: map (fun p => OStart (fst p) (snd p)) (enumerate 0 groups))
            ++ map (fun p => OJoin (fst p)) (enumerate 0 groups)
            ++ [OPrintElapsed]).
    now rewrite !app_assoc, last_last.
Qed.

Lemma failures_are_not_aggregated_witness :
  let r := prepare (toy_world_with ["a.json"; "missing.json"]%string 2)
             "data" "tok.model" "out" 3 "train" float_1 in
  outcome r = inr tt.
Proof.
  refine (proj1 (failures_are_not_aggregated
            (toy_world_with ["a.json"; "missing.json"]%string 2)
            "data" "tok.model" "out" 3 float_1
            ["a.json"; "missing.json"]%string eq_refl eq_refl _)).
  eexists. split; [right; left; reflexivity|reflexivity].
Defined.

(** C8, as stated, fails.  With four files and the percentage -0.5 the
    product is -2 and [filenames[:-2]] hands out the first two files;
    with three files and the double nearest to 1/3 the exact product is
    below 1, its floor is 0, yet the double product rounds to 1.0 and
    one file is handed out. *)
Lemma sample_is_not_exact_floor :
  (let listing := ["a"; "b"; "c"; "d"]%string in
   PyFloat.exact_scaled_floor 4 float_minus_half = Some (-2) /\
   concat (started (prepare (toy_world_with listing 2) "data" "tok.model"
                      "out" 3 "train" float_minus_half))
   = ["a"; "b"]%string /\
   concat (started (prepare (toy_world_with listing 2) "data" "tok.model"
                      "out" 3 "train" float_minus_half))
   <> firstn (Z.to_nat (-2)) listing) /\
  (let listing := ["a"; "b"; "c"]%string in
   PyFloat.exact_scaled_floor 3 float_third = Some 0 /\
   concat (started (prepare (toy_world_with listing 2) "data" "tok.model"
                      "out" 3 "train" float_third))
   = ["a"%string] /\
   concat (started (prepare (toy_world_with listing 2) "data" "tok.model"
                      "out" 3 "train" float_third))
   <> firstn (Z.to_nat 0) listing).
Proof. vm_compute. repeat split; discriminate. Qed.

(** C8, amended.  With [N] files enumerated and the percentage [p], let
    [x] be the double-precision product of [N] and [p].  When [x] is
    finite and not negative, the files handed to the workers are exactly
    the first [floor x] files of the enumeration, in order (all of them
    when there are no more than that), group after group. *)
Theorem sample_takes_floor_of_double_product
    (w : World) (src tokp dest : string) (cs : Z) (pct x : spec_float)
    (k : Z) :
  let listing := glob_glob w (path_join src "./*") in
  PyFloat.int_mul (Z.of_nat (length listing)) pct = inr x ->
  PyFloat.floor x = Some k ->
  0 <= k ->
  0 < cpu_count w ->
  concat (started (prepare w src tokp dest cs "train" pct))
  = firstn (Z.to_nat k) listing.
Proof.
  intros listing Hx Hf Hk Hcpu.
  pose proof (sample_nonneg listing pct x k Hx Hf Hk) as Hs.
  exact (started_prepare w src tokp dest cs pct _ Hs Hcpu).
Qed.

Lemma sample_takes_floor_of_double_product_witness :
  concat (started (prepare toy_world "data" "tok.model" "out" 3 "train"
                     float_half))
  = ["a.json"%string].
Proof.
  exact (sample_takes_floor_of_double_product toy_world "data" "tok.model"
           "out" 3 float_half float_1 1 eq_refl eq_refl ltac:(lia) eq_refl).
Defined.

End OrchestratorCorrections.

(** ** [Config.from_name] and the registry *)

Section RegistryClaims.
Import Py LitConfig.

Lemma two_presets_wf : wf two_presets.
Proof.
  intros n l H. unfold two_presets in *. cbn [name_to_config heap] in *.
  apply lookup_insert_Some in H as [[_ <-]|[_ H]].
  - now eexists.
  - apply lookup_singleton_Some in H as [_ <-]. now eexists.
Qed.

(** The 3b preset with one override: the defaults fill the rest, and
    [__post_init__] derives the padded vocabulary size, the number of
    query groups and the intermediate size. *)
Example from_name_example :
  match snd (from_name int_ops "stablelm-base-alpha-3b"
               {[ "n_layer"%string := VInt 8 ]} two_presets) with
  | inr c =>
      name c = VStr "stablelm-base-alpha-3b" /\ n_layer c = VInt 8 /\
      padded_vocab_size c = VInt 50688 /\ n_query_groups c = VInt 32 /\
      intermediate_size c = VInt 16384
  | inl _ => False
  end.
Proof. vm_compute. repeat split. Qed.

(** C10.  In a state whose registry entries all exist, for a name that
    is in the registry and any keyword overrides: the [Config] comes from
    the overrides laid over the stored items, held in a [dict] that did
    not exist before; the registry maps the same names to the same
    objects; every object that existed holds the same items, so every
    registry entry has the key/value pairs it had; and the state is still
    well formed.  This holds whether the construction succeeds or
    raises. *)
Theorem from_name_leaves_registry
    (ops : PyOps) (st : State) (nm : string) (kwargs : gmap string value)
    (l : loc) :
  wf st ->
  name_to_config st !! nm = Some l ->
  let st' := fst (from_name ops nm kwargs st) in
  let res := snd (from_name ops nm kwargs st) in
  (exists d, heap st !! l = Some d /\ res = construct ops (kwargs ∪ d)) /\
  name_to_config st' = name_to_config st /\
  (forall l0, is_Some (heap st !! l0) -> heap st' !! l0 = heap st !! l0) /\
  (forall n, entry st' n = entry st n) /\
  wf st'.
Proof.
  intros Hwf Hnm st' res.
  destruct (Hwf nm l Hnm) as [d Hd].
  pose proof (is_fresh (dom (heap st))) as Hfresh.
  set (l' := fresh (dom (heap st))) in *.
  assert (Hnone : heap st !! l' = None) by (now apply not_elem_of_dom).
  assert (Hrun : from_name ops nm kwargs st =
                 ({| heap := <[l' := kwargs ∪ d]> (heap st);
                     name_to_config := name_to_config st |},
                  construct ops (kwargs ∪ d))).
  { unfold from_name, dict_copy, dict_update. rewrite Hnm, Hd.
    fold l'. cbn [heap name_to_config].
    rewrite lookup_insert_eq. cbn [heap name_to_config].
    now rewrite insert_insert_eq, lookup_insert_eq. }
  unfold st', res. rewrite Hrun. cbn [fst snd heap name_to_config].
  assert (Hframe : forall l0, is_Some (heap st !! l0) ->
            <[l' := kwargs ∪ d]> (heap st) !! l0 = heap st !! l0).
  { intros l0 [d0 Hl0]. apply lookup_insert_ne. congruence. }
  split; [now exists d|]. split; [reflexivity|]. split; [exact Hframe|].
  split.
  - intros n. unfold entry. cbn [heap name_to_config].
    destruct (name_to_config st !! n) as [l0|] eqn:Hn; [|reflexivity].
    apply Hframe. exact (Hwf n l0 Hn).
  - intros n l0 Hn. cbn [heap name_to_config] in *.
    rewrite Hframe by exact (Hwf n l0 Hn). exact (Hwf n l0 Hn).
Qed.

Lemma from_name_leaves_registry_witness :
  entry (fst (from_name int_ops "stablelm-base-alpha-3b"
                {[ "n_layer"%string := VInt 8 ]} two_presets))
    "stablelm-base-alpha-3b"
  = entry two_presets "stablelm-base-alpha-3b".
Proof.
  exact (proj1 (proj2 (proj2 (proj2
           (from_name_leaves_registry int_ops two_presets
              "stablelm-base-alpha-3b" {[ "n_layer"%string := VInt 8 ]}
              0%nat two_presets_wf eq_refl))))
           "stablelm-base-alpha-3b"%string).
Defined.

End RegistryClaims.

(** ** More on [Config]: [__post_init__], [head_size], construction *)

Section PostInitFacts.
Import Py LitConfig ConfigMore.

(** What a successful [__post_init__] did, step by step. *)
Lemma post_init_inv (ops : PyOps) (c c' : Config) :
  post_init ops c = inr c' ->
  assert_divides ops (n_embd c) (n_head c) = inr tt /\
  exists pv nq im,
    c' = mkConfig (org c) (name c) (block_size c) (vocab_size c)
           (padding_multiple c) pv (n_layer c) (n_head c) (n_embd c)
           (rotary_percentage c) (parallel_residual c) (bias c) nq
           (shared_attention_norm c) (_norm_class c) (norm_eps c)
           (_mlp_class c) im (condense_ratio c) /\
    (if is_none (padded_vocab_size c)
     then find_multiple ops (vocab_size c) (padding_multiple c) = inr pv
     else pv = padded_vocab_size c) /\
    (if is_none (n_query_groups c)
     then nq = n_head c
     else nq = n_query_groups c /\
          assert_divides ops (n_head c) (n_query_groups c) = inr tt) /\
    (if is_none (intermediate_size c)
     then py_eq ops (_mlp_class c) (VStr "LLaMAMLP") = false /\
          py_mul ops (VInt 4) (n_embd c) = inr im
     else im = intermediate_size c).
Proof.
  destruct c as [o nm bs vs pm pvs nl nh ne rp pr bi nqg san nc eps mc isz cr].
  unfold post_init. cbn [n_embd n_head padded_vocab_size vocab_size
    padding_multiple n_query_groups intermediate_size _mlp_class].
  destruct (assert_divides ops ne nh) as [e|[]] eqn:Ha; cbn [rbind];
    [discriminate|].
  intros H. split; [reflexivity|].
  destruct (is_none pvs) eqn:Hpv.
  - destruct (find_multiple ops vs pm) as [e|pv] eqn:Hfm; cbn [rbind] in H;
      [discriminate|].
    unfold set_padded_vocab_size in H.
    cbn [n_query_groups n_head intermediate_size _mlp_class n_embd org name
         block_size vocab_size padding_multiple n_layer rotary_percentage
         parallel_residual bias shared_attention_norm _norm_class norm_eps
         condense_ratio padded_vocab_size] in H.
    destruct (is_none nqg) eqn:Hnq; cbn [negb rbind] in H.
    + unfold set_n_query_groups in H.
      cbn [n_query_groups n_head intermediate_size _mlp_class n_embd org name
           block_size vocab_size padding_multiple n_layer rotary_percentage
           parallel_residual bias shared_attention_norm _norm_class norm_eps
           condense_ratio padded_vocab_size] in H.
      destruct (is_none isz) eqn:His.
      * destruct (py_eq ops mc (VStr "LLaMAMLP")) eqn:Heq; [discriminate|].
        destruct (py_mul ops (VInt 4) ne) as [e|im] eqn:Hm; cbn [rbind] in H;
          [discriminate|].
        injection H as <-. exists pv, nh, im. repeat split; assumption.
      * injection H as <-. exists pv, nh, isz. repeat split; assumption.
    + destruct (assert_divides ops nh nqg) as [e|[]] eqn:Ha2; cbn [rbind] in H;
        [discriminate|].
      cbn [n_query_groups n_head intermediate_size _mlp_class n_embd org name
           block_size vocab_size padding_multiple n_layer rotary_percentage
           parallel_residual bias shared_attention_norm _norm_class norm_eps
           condense_ratio padded_vocab_size] in H.
      destruct (is_none isz) eqn:His.
      * destruct (py_eq ops mc (VStr "LLaMAMLP")) eqn:Heq; [discriminate|].
        destruct (py_mul ops (VInt 4) ne) as [e|im] eqn:Hm; cbn [rbind] in H;
          [discriminate|].
        injection H as <-. exists pv, nqg, im. repeat split; assumption.
      * injection H as <-. exists pv, nqg, isz. repeat split; assumption.
  - cbn [rbind] in H.
    cbn [n_query_groups n_head intermediate_size _mlp_class n_embd org name
         block_size vocab_size padding_multiple n_layer rotary_percentage
         parallel_residual bias shared_attention_norm _norm_class norm_eps
         condense_ratio padded_vocab_size] in H.
    destruct (is_none nqg) eqn:Hnq; cbn [negb rbind] in H.
    + unfold set_n_query_groups in H.
      cbn [n_query_groups n_head intermediate_size _mlp_class n_embd org name
           block_size vocab_size padding_multiple n_layer rotary_percentage
           parallel_residual bias shared_attention_norm _norm_class norm_eps
           condense_ratio padded_vocab_size] in H.
      destruct (is_none isz) eqn:His.
      * destruct (py_eq ops mc (VStr "LLaMAMLP")) eqn:Heq; [discriminate|].
        destruct (py_mul ops (VInt 4) ne) as [e|im] eqn:Hm; cbn [rbind] in H;
          [discriminate|].
        injection H as <-. exists pvs, nh, im. repeat split; assumption.
      * injection H as <-. exists pvs, nh, isz. repeat split; assumption.
    + destruct (assert_divides ops nh nqg) as [e|[]] eqn:Ha2; cbn [rbind] in H;
        [discriminate|].
      cbn [n_query_groups n_head intermediate_size _mlp_class n_embd org name
           block_size vocab_size padding_multiple n_layer rotary_percentage
           parallel_residual bias shared_attention_norm _norm_class norm_eps
           condense_ratio padded_vocab_size] in H.
      destruct (is_none isz) eqn:His.
      * destruct (py_eq ops mc (VStr "LLaMAMLP")) eqn:Heq; [discriminate|].
        destruct (py_mul ops (VInt 4) ne) as [e|im] eqn:Hm; cbn [rbind] in H;
          [discriminate|].
        injection H as <-. exists pvs, nqg, im. repeat split; assumption.
      * injection H as <-. exists pvs, nqg, isz. repeat split; assumption.
Qed.

End PostInitFacts.

Section ConfigExtras.
Import Py LitConfig ConfigMore.

Lemma int_assert_divides (a b : value) :
  assert_divides int_ops a b = inr tt ->
  exists x y, a = VInt x /\ b = VInt y /\ y <> 0 /\ x mod y = 0.
Proof.
  unfold assert_divides. cbn [py_mod py_eq int_ops].
  destruct a as [| | x | | |]; try discriminate.
  destruct b as [| | y | | |]; try discriminate.
  destruct (Z.eqb_spec y 0) as [|Hy]; [discriminate|]. cbn [rbind value_eqb].
  destruct (Z.eqb_spec (x mod y) 0) as [Hm|]; [|discriminate].
  intros _. now exists x, y.
Qed.

Lemma construct_inv (ops : PyOps) (d : gmap string value) (c : Config) :
  construct ops d = inr c ->
  post_init ops (init_fields d) = inr c /\
  forall k, is_Some (d !! k) -> In k field_names.
Proof.
  unfold construct.
  destruct (forallb _ (elements (dom d))) eqn:Hall; [|discriminate].
  intros H. split; [exact H|]. intros k Hk.
  rewrite forallb_forall in Hall.
  apply list_elem_of_In. eapply bool_decide_eq_true_1, Hall.
  apply list_elem_of_In, elem_of_elements, elem_of_dom. exact Hk.
Qed.

(** A keyword that names no field makes the construction a [TypeError],
    before [__post_init__] is entered. *)
Lemma construct_unexpected (ops : PyOps) (d : gmap string value) (k : string) :
  is_Some (d !! k) -> ~ In k field_names -> construct ops d = inl TypeError.
Proof.
  intros Hk Hnot. unfold construct.
  destruct (forallb _ (elements (dom d))) eqn:Hall; [|reflexivity].
  exfalso. apply Hnot. rewrite forallb_forall in Hall.
  apply list_elem_of_In. eapply bool_decide_eq_true_1, Hall.
  apply list_elem_of_In, elem_of_elements, elem_of_dom. exact Hk.
Qed.

(** [from_name] on a name that is registered: one new object holding the
    overrides laid over the preset, and the construction from it. *)
Lemma not_in_by_eqb (k : string) (l : list string) :
  existsb (String.eqb k) l = false -> ~ In k l.
Proof.
  intros H Hin.
  assert (Ht : existsb (String.eqb k) l = true).
  { apply existsb_exists. exists k. split; [exact Hin|apply String.eqb_refl]. }
  congruence.
Qed.

Lemma from_name_run (ops : PyOps) (st : State) (nm : string)
    (kwargs : gmap string value) (l : loc) (d : gmap string value) :
  name_to_config st !! nm = Some l ->
  heap st !! l = Some d ->
  from_name ops nm kwargs st =
  ({| heap := <[fresh (dom (heap st)) := kwargs ∪ d]> (heap st);
      name_to_config := name_to_config st |},
   construct ops (kwargs ∪ d)).
Proof.
  intros Hnm Hd. unfold from_name, dict_copy, dict_update. rewrite Hnm, Hd.
  cbn [heap name_to_config]. rewrite lookup_insert_eq.
  cbn [heap name_to_config].
  now rewrite insert_insert_eq, lookup_insert_eq.
Qed.

Lemma post_init_plain (ops : PyOps) (c c' : Config) (k : string) :
  post_init ops c = inr c' ->
  In k plain_fields ->
  get_field c' k = get_field c k.
Proof.
  intros H Hk. apply post_init_inv in H as (_ & pv & nq & im & -> & _).
  destruct c. unfold plain_fields in Hk. cbn [In] in Hk.
  repeat (destruct Hk as [<-|Hk]; [reflexivity|]). contradiction.
Qed.

(** X1.  [__post_init__] assigns nothing but [padded_vocab_size],
    [n_query_groups] and [intermediate_size]: whatever the operators do,
    when it returns every other field reads as it did before. *)
Theorem post_init_keeps_plain_fields (ops : PyOps) (c c' : Config) (k : string) :
  post_init ops c = inr c' ->
  In k plain_fields ->
  get_field c' k = get_field c k.
Proof. exact (post_init_plain ops c c' k). Qed.

Lemma post_init_keeps_plain_fields_witness :
  get_field (set_intermediate_size
               (set_n_query_groups
                  (set_padded_vocab_size (init_fields ∅) (VInt 50688))
                  (VInt 32)) (VInt 16384)) "n_layer"
  = get_field (init_fields ∅) "n_layer".
Proof.
  apply (post_init_keeps_plain_fields int_ops (init_fields ∅)).
  - vm_compute. reflexivity.
  - vm_compute. tauto.
Defined.

(** X2.  The three derived fields: a value that was given (not [None])
    is kept as given; a missing [padded_vocab_size] is what
    [find_multiple(vocab_size, padding_multiple)] returned, a missing
    [n_query_groups] is [n_head], and a missing [intermediate_size] is what
    [4 * n_embd] evaluated to. *)
Theorem post_init_derives_missing_fields (ops : PyOps) (c c' : Config) :
  post_init ops c = inr c' ->
  (if is_none (padded_vocab_size c)
   then find_multiple ops (vocab_size c) (padding_multiple c)
        = inr (padded_vocab_size c')
   else padded_vocab_size c' = padded_vocab_size c) /\
  (if is_none (n_query_groups c)
   then n_query_groups c' = n_head c'
   else n_query_groups c' = n_query_groups c) /\
  (if is_none (intermediate_size c)
   then py_mul ops (VInt 4) (n_embd c) = inr (intermediate_size c')
   else intermediate_size c' = intermediate_size c).
Proof.
  intros H. apply post_init_inv in H as (_ & pv & nq & im & -> & H1 & H2 & H3).
  cbn [padded_vocab_size n_query_groups intermediate_size n_head].
  split; [exact H1|]. split.
  - destruct (is_none (n_query_groups c)); [exact H2|exact (proj1 H2)].
  - destruct (is_none (intermediate_size c)); [exact (proj2 H3)|exact H3].
Qed.

Lemma post_init_derives_missing_fields_witness :
  find_multiple int_ops (VInt 50254) (VInt 512) = inr (VInt 50688) /\
  VInt 32 = VInt 32 /\
  py_mul int_ops (VInt 4) (VInt 4096) = inr (VInt 16384).
Proof.
  exact (post_init_derives_missing_fields int_ops (init_fields ∅)
           (set_intermediate_size
              (set_n_query_groups
                 (set_padded_vocab_size (init_fields ∅) (VInt 50688))
                 (VInt 32)) (VInt 16384)) eq_refl).
Defined.

(** A [Config] with the [LLaMAMLP] class and no intermediate size, the
    other defaults in place: the [ValueError] of [__post_init__]. *)
Example llama_mlp_value_error :
  construct int_ops {[ "_mlp_class"%string := VStr "LLaMAMLP" ]}
  = inl ValueError.
Proof. vm_compute. reflexivity. Qed.

(** X3.  With [_mlp_class == "LLaMAMLP"] and [intermediate_size] left
    [None], [__post_init__] never returns: no such [Config] comes into
    being, whatever the other fields.  The exception is the
    [ValueError] of the last check as soon as the earlier steps pass
    (the first assertion, the padding of the vocabulary when it is
    wanted, the second assertion when [n_query_groups] is given), and
    the exception of the first assertion when that one fails. *)
Theorem llama_mlp_needs_intermediate_size (ops : PyOps) (c : Config) :
  py_eq ops (_mlp_class c) (VStr "LLaMAMLP") = true ->
  intermediate_size c = VNone ->
  (exists e, post_init ops c = inl e) /\
  (assert_divides ops (n_embd c) (n_head c) = inr tt ->
   (is_none (padded_vocab_size c) = true ->
    exists pv,
      find_multiple ops (vocab_size c) (padding_multiple c) = inr pv) ->
   (is_none (n_query_groups c) = false ->
    assert_divides ops (n_head c) (n_query_groups c) = inr tt) ->
   post_init ops c = inl ValueError) /\
  (forall e, assert_divides ops (n_embd c) (n_head c) = inl e ->
             post_init ops c = inl e).
Proof.
  intros Heq Hnone. split; [|split].
  - destruct (post_init ops c) as [e|c'] eqn:H; [now exists e|].
    apply post_init_inv in H as (_ & pv & nq & im & _ & _ & _ & H3).
    rewrite Hnone in H3. cbn [is_none] in H3. destruct H3 as [H3 _].
    congruence.
  - intros Ha Hpad Hgrp. unfold post_init. rewrite Ha. cbn [rbind].
    destruct (is_none (padded_vocab_size c)) eqn:Hp.
    + destruct (Hpad eq_refl) as [pv Hpv]. rewrite Hpv. cbn [rbind].
      change (n_query_groups (set_padded_vocab_size c pv))
        with (n_query_groups c).
      change (n_head (set_padded_vocab_size c pv)) with (n_head c).
      destruct (is_none (n_query_groups c)) eqn:Hq; cbn [negb rbind].
      * change (intermediate_size
                  (set_n_query_groups (set_padded_vocab_size c pv)
                     (n_head c))) with (intermediate_size c).
        change (_mlp_class
                  (set_n_query_groups (set_padded_vocab_size c pv)
                     (n_head c))) with (_mlp_class c).
        rewrite Hnone, Heq. reflexivity.
      * rewrite (Hgrp eq_refl). cbn [rbind].
        change (intermediate_size (set_padded_vocab_size c pv))
          with (intermediate_size c).
        change (_mlp_class (set_padded_vocab_size c pv))
          with (_mlp_class c).
        rewrite Hnone, Heq. reflexivity.
    + cbn [rbind].
      destruct (is_none (n_query_groups c)) eqn:Hq; cbn [negb rbind].
      * change (intermediate_size (set_n_query_groups c (n_head c)))
          with (intermediate_size c).
        change (_mlp_class (set_n_query_groups c (n_head c)))
          with (_mlp_class c).
        rewrite Hnone, Heq. reflexivity.
      * rewrite (Hgrp eq_refl). cbn [rbind].
        rewrite Hnone, Heq. reflexivity.
  - intros e He. unfold post_init. rewrite He. reflexivity.
Qed.

Lemma llama_mlp_needs_intermediate_size_witness :
  post_init int_ops
    (init_fields {[ "_mlp_class"%string := VStr "LLaMAMLP" ]})
  = inl ValueError /\
  post_init int_ops
    (init_fields {[ "_mlp_class"%string := VStr "LLaMAMLP";
                    "n_head"%string := VInt 0 ]})
  = inl ZeroDivisionError.
Proof.
  split.
  - exact (proj1 (proj2 (llama_mlp_needs_intermediate_size int_ops
             (init_fields {[ "_mlp_class"%string := VStr "LLaMAMLP" ]})
             eq_refl eq_refl))
             eq_refl
             (fun _ => ex_intro _ (VInt 50688) eq_refl)
             (fun H => False_ind _ (Bool.diff_true_false H))).
  - exact (proj2 (proj2 (llama_mlp_needs_intermediate_size int_ops
             (init_fields {[ "_mlp_class"%string := VStr "LLaMAMLP";
                             "n_head"%string := VInt 0 ]})
             eq_refl eq_refl))
             ZeroDivisionError eq_refl).
Defined.

(** X4.  Every [Config] constructed over integer operands satisfies the
    two assertions for good: [n_embd] is a multiple of [n_head], and
    [n_head] is a multiple of [n_query_groups] (also when the latter was
    defaulted), neither divisor being zero. *)
Theorem constructed_config_divisibility (d : gmap string value) (c : Config) :
  construct int_ops d = inr c ->
  exists e h g,
    n_embd c = VInt e /\ n_head c = VInt h /\ n_query_groups c = VInt g /\
    h <> 0 /\ g <> 0 /\ e mod h = 0 /\ h mod g = 0.
Proof.
  intros H. apply construct_inv in H as [H _].
  apply post_init_inv in H as (Ha & pv & nq & im & -> & _ & H2 & _).
  apply int_assert_divides in Ha as (e & h & He & Hh & Hh0 & Hm).
  cbn [n_embd n_head n_query_groups]. rewrite He, Hh.
  destruct (is_none (n_query_groups (init_fields d))).
  - subst nq. exists e, h, h. rewrite Hh.
    repeat split; try assumption. apply Z_mod_same_full.
  - destruct H2 as [-> H2].
    apply int_assert_divides in H2 as (h' & g & Hh' & Hg & Hg0 & Hm').
    rewrite Hh in Hh'. injection Hh' as <-.
    exists e, h, g. repeat split; assumption.
Qed.

Lemma constructed_config_divisibility_witness :
  exists e h g,
    n_embd (init_fields tiny_LLaMA_1b) = VInt e /\
    n_head (init_fields tiny_LLaMA_1b) = VInt h /\
    n_query_groups (init_fields tiny_LLaMA_1b) = VInt g /\
    h <> 0 /\ g <> 0 /\ e mod h = 0 /\ h mod g = 0.
Proof.
  exact (constructed_config_divisibility tiny_LLaMA_1b
           (set_padded_vocab_size (init_fields tiny_LLaMA_1b) (VInt 32000))
           eq_refl).
Defined.

(** X5.  For every [Config] constructed over integer operands,
    [head_size] is defined and [head_size * n_head = n_embd]: the floored
    quotient loses nothing. *)
Theorem head_size_times_n_head (d : gmap string value) (c : Config) :
  construct int_ops d = inr c ->
  exists e h,
    n_embd c = VInt e /\ n_head c = VInt h /\
    head_size int_floordiv c = inr (VInt (e / h)) /\
    e / h * h = e.
Proof.
  intros H. apply construct_inv in H as [H _].
  apply post_init_inv in H as (Ha & pv & nq & im & -> & _).
  apply int_assert_divides in Ha as (e & h & He & Hh & Hh0 & Hm).
  exists e, h. unfold head_size. cbn [n_embd n_head]. rewrite He, Hh.
  repeat split. - cbn [int_floordiv].
    now destruct (Z.eqb_spec h 0).
  - pose proof (Z.div_mod e h Hh0). lia.
Qed.

Lemma head_size_times_n_head_witness :
  exists e h,
    n_embd (init_fields tiny_LLaMA_1b) = VInt e /\
    n_head (init_fields tiny_LLaMA_1b) = VInt h /\
    head_size int_floordiv (init_fields tiny_LLaMA_1b) = inr (VInt (e / h)) /\
    e / h * h = e.
Proof.
  exact (head_size_times_n_head tiny_LLaMA_1b
           (set_padded_vocab_size (init_fields tiny_LLaMA_1b) (VInt 32000))
           eq_refl).
Defined.

End ConfigExtras.

(** ** More on [from_name] and the registry *)

Section RegistryExtras.
Import Py LitConfig ConfigMore.

(** The presets of the source through [from_name]: [tiny_LLaMA_1b] gives
    a [Config]; [TinyLlama3] carries keys that [Config] has no field for. *)
Example from_name_presets :
  (exists c, snd (from_name int_ops "tiny_LLaMA_1b" ∅ four_presets_registered)
             = inr c /\ padded_vocab_size c = VInt 32000) /\
  snd (from_name int_ops "TinyLlama3" ∅ four_presets_registered)
  = inl TypeError.
Proof.
  split.
  - exists (set_padded_vocab_size (init_fields (∅ ∪ tiny_LLaMA_1b))
              (VInt 32000)).
    split; vm_compute; reflexivity.
  - vm_compute. reflexivity.
Qed.

(** X6.  When the preset or the overrides hold a key that is not a field
    of [Config], [from_name] raises [TypeError], whatever the other items
    and the operators; so it does for the preset [TinyLlama3], whose
    [ffn_dim_multiplier], [rope_base] and [rope_condense_ratio] name no
    field. *)
Theorem from_name_rejects_unknown_keys
    (ops : PyOps) (st : State) (nm : string) (kwargs : gmap string value)
    (l : loc) (d : gmap string value) (k : string) :
  name_to_config st !! nm = Some l ->
  heap st !! l = Some d ->
  is_Some (kwargs !! k) \/ is_Some (d !! k) ->
  ~ In k field_names ->
  snd (from_name ops nm kwargs st) = inl TypeError.
Proof.
  intros Hnm Hd Hk Hnot. rewrite (from_name_run ops st nm kwargs l d Hnm Hd).
  cbn [snd]. apply (construct_unexpected ops _ k); [|exact Hnot].
  apply lookup_union_is_Some. exact Hk.
Qed.

Lemma from_name_rejects_unknown_keys_witness :
  snd (from_name int_ops "TinyLlama3" ∅ four_presets_registered)
  = inl TypeError.
Proof.
  apply (from_name_rejects_unknown_keys int_ops four_presets_registered
           "TinyLlama3" ∅ 3%nat tinyllama3 "rope_base").
  - reflexivity.
  - reflexivity.
  - right. now exists (VInt 50000).
  - apply not_in_by_eqb. reflexivity.
Defined.

(** A name that is not in the registry: [from_name] raises
    [KeyError] and leaves the state exactly as it was, no object being
    created. *)
Lemma from_name_unknown_name
    (ops : PyOps) (st : State) (nm : string) (kwargs : gmap string value) :
  name_to_config st !! nm = None ->
  from_name ops nm kwargs st = (st, inl KeyError).
Proof. intros H. unfold from_name. now rewrite H. Qed.

Lemma init_fields_get (kw : gmap string value) (k : string) :
  In k plain_fields ->
  get_field (init_fields kw) k =
  match kw !! k with
  | Some v => Some v
  | None => get_field (init_fields ∅) k
  end.
Proof.
  intros Hk. unfold plain_fields in Hk. cbn [In] in Hk.
  repeat (destruct Hk as [<-|Hk];
          [unfold init_fields, get_field;
           lazy beta iota zeta delta [fields List.find fst snd option_map
             String.eqb Ascii.eqb Bool.eqb org name block_size vocab_size
             padding_multiple n_layer n_head n_embd rotary_percentage
             parallel_residual bias shared_attention_norm _norm_class
             norm_eps _mlp_class condense_ratio];
           rewrite ?lookup_empty;
           match goal with |- context [kw !! ?x] => destruct (kw !! x) end;
           reflexivity|]).
  contradiction.
Qed.

(** X7.  The fields that [__post_init__] leaves alone, in the [Config]
    that [from_name] returns: an override wins over the preset, the preset
    wins over the default of the dataclass. *)
Theorem from_name_precedence
    (ops : PyOps) (st : State) (nm : string) (kwargs : gmap string value)
    (l : loc) (d : gmap string value) (c : Config) (k : string) :
  name_to_config st !! nm = Some l ->
  heap st !! l = Some d ->
  snd (from_name ops nm kwargs st) = inr c ->
  In k plain_fields ->
  get_field c k =
  match kwargs !! k with
  | Some v => Some v
  | None => match d !! k with
            | Some v => Some v
            | None => get_field (init_fields ∅) k
            end
  end.
Proof.
  intros Hnm Hd Hc Hk.
  rewrite (from_name_run ops st nm kwargs l d Hnm Hd) in Hc. cbn [snd] in Hc.
  apply construct_inv in Hc as [Hc _].
  rewrite (post_init_plain ops _ c k Hc Hk), (init_fields_get _ k Hk).
  rewrite lookup_union.
  destruct (kwargs !! k), (d !! k); reflexivity.
Qed.

Lemma from_name_precedence_witness :
  get_field (set_padded_vocab_size
               (init_fields ({[ "n_layer"%string := VInt 2 ]} ∪ tiny_LLaMA_1b))
               (VInt 32000)) "n_layer"
  = match ({[ "n_layer"%string := VInt 2 ]} : gmap string value)
          !! "n_layer"%string with
    | Some v => Some v
    | None => match tiny_LLaMA_1b !! "n_layer"%string with
              | Some v => Some v
              | None => get_field (init_fields ∅) "n_layer"
              end
    end.
Proof.
  apply (from_name_precedence int_ops four_presets_registered "tiny_LLaMA_1b"
           {[ "n_layer"%string := VInt 2 ]} 2%nat tiny_LLaMA_1b).
  - reflexivity.
  - reflexivity.
  - vm_compute. reflexivity.
  - do 5 right. now left.
Defined.

End RegistryExtras.

Section RegistryBuild.
Import Py LitConfig ConfigMore.


Lemma register_all_inv hp (configs : list loc) : forall acc reg,
  register_all hp configs acc = Done reg ->
  forall n l, reg !! n = Some l ->
    acc !! n = Some l \/
    (In l configs /\
     exists d, hp !! l = Some d /\ d !! "name"%string = Some (VStr n)).
Proof.
  induction configs as [|c configs IH]; intros acc reg; simpl.
  - intros [= <-] n l H. now left.
  - destruct (hp !! c) as [d|] eqn:Hc; [|discriminate].
    destruct (d !! "name"%string) as [[| | | |n0|]|] eqn:Hn; try discriminate.
    intros H n l Hl.
    destruct (IH _ _ H n l Hl) as [Hacc|(Hin & d' & Hd' & Hn')].
    + apply lookup_insert_Some in Hacc as [[<- <-]|[_ Hacc]].
      * right. split; [now left|]. now exists d.
      * now left.
    + right. split; [now right|]. now exists d'.
Qed.


Lemma build_inv (st st' : State) (configs : list loc) :
  build_name_to_config st configs = Done st' ->
  heap st' = heap st /\
  register_all (heap st) configs ∅ = Done (name_to_config st').
Proof.
  unfold build_name_to_config.
  destruct (register_all (heap st) configs ∅) as [reg| |]; try discriminate.
  intros [= <-]. now split.
Qed.

Lemma built_entry (st st' : State) (configs : list loc) (n : string) (l : loc) :
  build_name_to_config st configs = Done st' ->
  name_to_config st' !! n = Some l ->
  In l configs /\
  exists d, heap st' !! l = Some d /\ d !! "name"%string = Some (VStr n).
Proof.
  intros Hb Hl. apply build_inv in Hb as [Hh Hr]. rewrite Hh.
  destruct (register_all_inv _ _ _ _ Hr n l Hl) as [H|H]; [|exact H].
  now rewrite lookup_empty in H.
Qed.

(** The registry over the four preset objects is the one expected. *)
Example build_four_presets :
  build_name_to_config four_presets [0; 1; 2; 3]%nat
  = Done four_presets_registered.
Proof. reflexivity. Qed.

(** X8.  When the comprehension that builds [name_to_config] ends, the
    state is well formed, no object has changed, and every key [n] of the
    registry leads to one of the presets of [configs], whose ["name"] item
    is the string [n] itself. *)
Theorem registry_keys_are_names (st st' : State) (configs : list loc) :
  build_name_to_config st configs = Done st' ->
  heap st' = heap st /\
  wf st' /\
  forall n l, name_to_config st' !! n = Some l ->
    In l configs /\
    exists d, heap st' !! l = Some d /\ d !! "name"%string = Some (VStr n).
Proof.
  intros Hb. split; [exact (proj1 (build_inv _ _ _ Hb))|]. split.
  - intros n l Hl.
    destruct (built_entry _ _ _ n l Hb Hl) as (_ & d & Hd & _). now exists d.
  - intros n l Hl. exact (built_entry _ _ _ n l Hb Hl).
Qed.

Lemma registry_keys_are_names_witness :
  heap four_presets_registered = heap four_presets /\
  wf four_presets_registered.
Proof.
  destruct (registry_keys_are_names four_presets four_presets_registered
              [0; 1; 2; 3]%nat build_four_presets) as (H1 & H2 & _).
  split; [exact H1 | exact H2].
Defined.



(** X10.  On a registry built by the comprehension, [from_name(n)]
    without an override of ["name"] returns, when it returns, a [Config]
    whose [name] is [n]. *)
Theorem from_name_returns_named_config
    (ops : PyOps) (st st' : State) (configs : list loc) (nm : string)
    (kwargs : gmap string value) (c : Config) :
  build_name_to_config st configs = Done st' ->
  kwargs !! "name"%string = None ->
  snd (from_name ops nm kwargs st') = inr c ->
  name c = VStr nm.
Proof.
  intros Hb Hkw Hc.
  destruct (name_to_config st' !! nm) as [l|] eqn:Hnm.
  2:{ unfold from_name in Hc. rewrite Hnm in Hc. discriminate. }
  destruct (built_entry _ _ _ nm l Hb Hnm) as (_ & d & Hd & Hn).
  rewrite (from_name_run ops st' nm kwargs l d Hnm Hd) in Hc. cbn [snd] in Hc.
  apply construct_inv in Hc as [Hc _].
  apply post_init_inv in Hc as (_ & pv & nq & im & -> & _).
  cbn [name init_fields]. rewrite lookup_union, Hkw, Hn. reflexivity.
Qed.

Lemma from_name_returns_named_config_witness :
  name (set_padded_vocab_size (init_fields (∅ ∪ tiny_LLaMA_1b)) (VInt 32000))
  = VStr "tiny_LLaMA_1b".
Proof.
  apply (from_name_returns_named_config int_ops four_presets
           four_presets_registered [0; 1; 2; 3]%nat "tiny_LLaMA_1b" ∅).
  - exact build_four_presets.
  - reflexivity.
  - vm_compute. reflexivity.
Defined.

End RegistryBuild.

(** ** More on the worker: where it stops *)

Section WorkerStops.
Import Py PackedDataset PrepareWudao WorkerTrace.

Lemma opened_of_app l1 l2 :
  opened_of (l1 ++ l2) = opened_of l1 ++ opened_of l2.
Proof. unfold opened_of. apply flat_map_app. Qed.

Lemma opened_of_writes l : opened_of (map EvWrite l) = [].
Proof. induction l as [|sh l IH]; simpl; [reflexivity|exact IH]. Qed.

Lemma add_array_opened b tokens log r :
  add_array b tokens = (log, r) -> opened_of log = [].
Proof.
  unfold add_array. destruct (append b tokens []) as [[b' new]|].
  - intros [= <- _]. apply opened_of_writes.
  - now intros [= <- _].
Qed.

Lemma add_rows_opened tok texts : forall b log r,
  add_rows tok b texts = (log, r) -> opened_of log = [].
Proof.
  induction texts as [|row texts IH]; intros b log r.
  - now intros [= <- _].
  - destruct row as [c|]; [|now intros [= <- _]].
    rewrite add_rows_cons.
    destruct (add_array b (encode tok c)) as [l1 [e|b1]] eqn:Ha.
    + intros [= <- _]. exact (add_array_opened _ _ _ _ Ha).
    + destruct (add_rows tok b1 texts) as [l2 r2] eqn:Hr. intros [= <- _].
      now rewrite opened_of_app, (add_array_opened _ _ _ _ Ha), (IH _ _ _ Hr).
Qed.

Lemma process_files_app w tok (pre post : list string) : forall b,
  process_files w tok b (pre ++ post) =
  match process_files w tok b pre with
  | (l1, inl e) => (l1, inl e)
  | (l1, inr b1) =>
      let '(l2, r) := process_files w tok b1 post in (l1 ++ l2, r)
  end.
Proof.
  induction pre as [|f pre IH]; intros b.
  - cbn [app process_files ret]. now destruct (process_files w tok b post).
  - change ((f :: pre) ++ post) with (f :: pre ++ post).
    rewrite !process_files_cons.
    destruct (json_load w f) as [texts| |]; try reflexivity.
    destruct (add_rows tok b texts) as [l1 [e|b1]]; [reflexivity|].
    rewrite IH.
    destruct (process_files w tok b1 pre) as [l2 [e|b2]]; [reflexivity|].
    destruct (process_files w tok b2 post) as [l3 r].
    now rewrite <- !app_assoc.
Qed.

Lemma process_files_opened w tok files : forall b log b',
  process_files w tok b files = (log, inr b') -> opened_of log = files.
Proof.
  induction files as [|f files IH]; intros b log b'.
  - now intros [= <- _].
  - rewrite process_files_cons.
    destruct (json_load w f) as [texts| |]; try discriminate.
    destruct (add_rows tok b texts) as [l1 [e|b1]] eqn:Ha; [discriminate|].
    destruct (process_files w tok b1 files) as [l2 r2] eqn:Hr.
    intros [= <- ->].
    change (f :: opened_of (l1 ++ l2) = f :: files).
    now rewrite opened_of_app, (add_rows_opened _ _ _ _ _ Ha), (IH _ _ _ Hr).
Qed.

(** A worker on a group that is not empty, once the directory and the
    tokenizer are there and the builder is made. *)
Lemma prepare_full_nonempty w src tokp dest cs split files pid tok b0 :
  mkdir_ok w dest = true ->
  load_tokenizer w tokp = Some tok ->
  files <> [] ->
  new true dest (builder_prefix split pid) cs (bos_id tok) (vocab_size tok)
    DtAuto = inr b0 ->
  prepare_full w src tokp dest cs split (Some files) pid =
  let '(log, r) := process_files w tok b0 files in
  ([EvMkdir dest; EvTokenizer tokp; EvBuilder (builder_prefix split pid)]
   ++ log, r).
Proof.
  intros Hdir Htok Hne Hnew. destruct files as [|f files]; [congruence|].
  unfold prepare_full. rewrite Hdir, Htok.
  generalize (process_files w). intros pf.
  cbn [bind emit ret of_option app lift]. rewrite Hnew.
  cbn [bind emit ret of_option app lift].
  now destruct (pf tok b0 (f :: files)).
Qed.

Lemma add_rows_keyerror tok b0 texts : forall b disk stream,
  0 < chunk_size b0 ->
  packed b0 b disk stream ->
  contents texts = None ->
  exists log, add_rows tok b texts = (log, inl KeyError).
Proof.
  induction texts as [|row texts IH]; intros b disk stream Hcs Hp Hc;
    [discriminate|].
  destruct row as [c|].
  - cbn [contents] in Hc.
    destruct (contents texts) as [cl|] eqn:Hc'; [discriminate|].
    rewrite add_rows_cons.
    destruct (add_array_packed b0 b disk stream (encode tok c) Hcs Hp)
      as (b1 & new1 & -> & Hp1).
    destruct (IH b1 _ _ Hcs Hp1 eq_refl) as (log & ->).
    now eexists.
  - now exists [].
Qed.

(** X12.  A worker stops at the first file that gives no rows.  When
    the files before it all load with all their rows, the worker raises
    the error of that file, [OSError] when the file cannot be opened and
    [ValueError] when it opens and is not JSON; it has opened exactly the
    files before it and the failing one, in order, and it opens none of
    the files after it. *)
Theorem worker_stops_at_unreadable_file
    (w : World) (src tokp dest : string) (cs : Z) (split : string)
    (pre post : list string) (bad : string) (pid : nat) (tok : Tokenizer)
    (docs : list string) (e : exn) :
  mkdir_ok w dest = true ->
  load_tokenizer w tokp = Some tok ->
  0 < cs ->
  corpus w pre = Some docs ->
  load_error (json_load w bad) = Some e ->
  let run := prepare_full w src tokp dest cs split
               (Some (pre ++ bad :: post)) pid in
  snd run = inl e /\ opened_of (fst run) = pre ++ [bad] /\
  (json_load w bad = NotOpened -> e = OSError) /\
  (json_load w bad = NotParsed -> e = ValueError).
Proof.
  intros Hdir Htok Hcs Hdocs Hbad run.
  destruct (new true dest (builder_prefix split pid) cs (bos_id tok)
              (vocab_size tok) DtAuto) as [e0|b0] eqn:Hnew.
  { unfold new in Hnew. destruct (Z.leb_spec cs 0); [lia|discriminate]. }
  destruct (new_packed _ _ _ _ _ _ _ _ Hnew) as (Hpos & _ & _ & _ & Hp0).
  destruct (process_files_packed w tok b0 pre docs b0 [] [] Hpos Hp0 Hdocs)
    as (b1 & log1 & Hrun1 & _).
  unfold run.
  rewrite (prepare_full_nonempty w src tokp dest cs split
             (pre ++ bad :: post) pid tok b0
             Hdir Htok ltac:(intros Hnil; destruct pre; discriminate) Hnew).
  rewrite process_files_app, Hrun1, process_files_cons.
  destruct (json_load w bad) as [texts| |]; cbn [load_error] in Hbad;
    [discriminate| |]; injection Hbad as <-; cbn [fst snd];
    (split; [reflexivity|]);
    (split; [rewrite !opened_of_app,
               (process_files_opened _ _ _ _ _ _ Hrun1); reflexivity|]);
    (split; intros H; first [reflexivity | discriminate H]).
Qed.

Lemma worker_stops_at_unreadable_file_witness :
  (let run := prepare_full toy_world_bad_row "data" "tok.model" "out" 3
                "train" (Some ["a.json"; "missing.json"; "b.json"]%string) 0 in
   snd run = inl OSError /\
   opened_of (fst run) = ["a.json"; "missing.json"]%string) /\
  (let run := prepare_full toy_world_bad_row "data" "tok.model" "out" 3
                "train" (Some ["a.json"; "d.json"; "b.json"]%string) 0 in
   snd run = inl ValueError /\
   opened_of (fst run) = ["a.json"; "d.json"]%string).
Proof.
  destruct (worker_stops_at_unreadable_file toy_world_bad_row "data"
              "tok.model" "out" 3 "train" ["a.json"%string] ["b.json"%string]
              "missing.json" 0 toy_tokenizer ["ab"; "c"]%string OSError
              eq_refl eq_refl ltac:(lia) eq_refl eq_refl) as (H1 & H2 & _).
  destruct (worker_stops_at_unreadable_file toy_world_bad_row "data"
              "tok.model" "out" 3 "train" ["a.json"%string] ["b.json"%string]
              "d.json" 0 toy_tokenizer ["ab"; "c"]%string ValueError
              eq_refl eq_refl ltac:(lia) eq_refl eq_refl) as (H3 & H4 & _).
  split; split; assumption.
Defined.

(** X13.  A worker stops at the first row without a ["content"] key.
    When the files before load with all their rows and a file loads but
    has such a row, the worker raises [KeyError], having opened exactly
    the files up to that one. *)
Theorem worker_stops_at_row_without_content
    (w : World) (src tokp dest : string) (cs : Z) (split : string)
    (pre post : list string) (bad : string) (pid : nat) (tok : Tokenizer)
    (docs : list string) (texts : list (option string)) :
  mkdir_ok w dest = true ->
  load_tokenizer w tokp = Some tok ->
  0 < cs ->
  corpus w pre = Some docs ->
  json_load w bad = Rows texts ->
  contents texts = None ->
  let run := prepare_full w src tokp dest cs split
               (Some (pre ++ bad :: post)) pid in
  snd run = inl KeyError /\ opened_of (fst run) = pre ++ [bad].
Proof.
  intros Hdir Htok Hcs Hdocs Hbad Hrow run.
  destruct (new true dest (builder_prefix split pid) cs (bos_id tok)
              (vocab_size tok) DtAuto) as [e|b0] eqn:Hnew.
  { unfold new in Hnew. destruct (Z.leb_spec cs 0); [lia|discriminate]. }
  destruct (new_packed _ _ _ _ _ _ _ _ Hnew) as (Hpos & _ & _ & _ & Hp0).
  destruct (process_files_packed w tok b0 pre docs b0 [] [] Hpos Hp0 Hdocs)
    as (b1 & log1 & Hrun1 & Hp1).
  destruct (add_rows_keyerror tok b0 texts b1 _ _ Hpos Hp1 Hrow)
    as (log2 & Hrun2).
  unfold run.
  rewrite (prepare_full_nonempty w src tokp dest cs split
             (pre ++ bad :: post) pid tok b0
             Hdir Htok ltac:(intros Hnil; destruct pre; discriminate) Hnew).
  rewrite process_files_app, Hrun1, process_files_cons, Hbad, Hrun2.
  cbn [fst snd]. split; [reflexivity|].
  rewrite !opened_of_app, (process_files_opened _ _ _ _ _ _ Hrun1).
  rewrite (add_rows_opened _ _ _ _ _ Hrun2). reflexivity.
Qed.

Lemma worker_stops_at_row_without_content_witness :
  let run := prepare_full toy_world_bad_row "data" "tok.model" "out" 3
               "train" (Some ["a.json"; "c.json"; "b.json"]%string) 0 in
  snd run = inl KeyError /\
  opened_of (fst run) = ["a.json"; "c.json"]%string.
Proof.
  exact (worker_stops_at_row_without_content toy_world_bad_row "data"
           "tok.model" "out" 3 "train" ["a.json"%string] ["b.json"%string]
           "c.json" 0 toy_tokenizer ["ab"; "c"]%string
           [Some "ab"%string; None]
           eq_refl eq_refl ltac:(lia) eq_refl eq_refl eq_refl).
Defined.

(** X14.  A worker whose group is empty (or absent), with the directory
    and the tokenizer available, raises [RuntimeError] when the split is
    ["train"], and [KeyError] for any other split, because the message of
    the [RuntimeError] looks the split up in [wudao_sets]; in both cases
    it has only created the directory and loaded the tokenizer. *)
Theorem empty_group_error_depends_on_split
    (w : World) (src tokp dest : string) (cs : Z) (split : string)
    (group : option (list string)) (pid : nat) (tok : Tokenizer) :
  mkdir_ok w dest = true ->
  load_tokenizer w tokp = Some tok ->
  group = None \/ group = Some [] ->
  prepare_full w src tokp dest cs split group pid =
  ([EvMkdir dest; EvTokenizer tokp],
   inl (if String.eqb split "train" then RuntimeError else KeyError)).
Proof.
  intros Hdir Htok [-> | ->]; unfold prepare_full, lift, wudao_sets;
    rewrite Hdir, Htok; now destruct (String.eqb split "train").
Qed.

Lemma empty_group_error_depends_on_split_witness :
  prepare_full toy_world "data" "tok.model" "out" 3 "validation" None 0
  = ([EvMkdir "out"; EvTokenizer "tok.model"], inl KeyError).
Proof.
  exact (empty_group_error_depends_on_split toy_world "data" "tok.model" "out"
           3 "validation" None 0 toy_tokenizer eq_refl eq_refl
           (or_introl eq_refl)).
Defined.

End WorkerStops.

(** ** More on the orchestrator: the split, the percentage, the groups *)

Section OrchestratorExtras.
Import Py PackedDataset PrepareWudao WorkerTrace.

(** Rounding a mantissa that is not negative never gives not-a-number. *)
Lemma shr_1_nonneg (mrs : shr_record) :
  0 <= shr_m mrs -> 0 <= shr_m (shr_1 mrs).
Proof.
  destruct mrs as [m r s]. cbn [shr_m].
  destruct m as [|p|p]; [|destruct p|]; cbn; lia.
Qed.

Lemma iter_pos_keeps {A} (P : A -> Prop) (f : A -> A) :
  (forall x, P x -> P (f x)) ->
  forall n x, P x -> P (SpecFloat.iter_pos f n x).
Proof.
  intros Hf. induction n as [n IH|n IH|]; intros x Hx; cbn [SpecFloat.iter_pos].
  - apply IH, IH, Hf, Hx.
  - apply IH, IH, Hx.
  - apply Hf, Hx.
Qed.

Lemma shr_fexp_nonneg (m e : Z) (l : location) :
  0 <= m -> 0 <= shr_m (fst (shr_fexp PyFloat.prec PyFloat.emax m e l)).
Proof.
  intros Hm. unfold shr_fexp, shr.
  assert (H0 : 0 <= shr_m (shr_record_of_loc m l)).
  { destruct l as [|[| |]]; exact Hm. }
  destruct (_ - e) as [|p|p]; cbn [fst]; try exact H0.
  apply (iter_pos_keeps (fun mrs => 0 <= shr_m mrs)); [exact shr_1_nonneg|].
  exact H0.
Qed.

Lemma round_nearest_even_nonneg (mx : Z) (lx : location) :
  0 <= mx -> 0 <= round_nearest_even mx lx.
Proof.
  intros Hm. unfold round_nearest_even.
  destruct lx as [|[| |]]; try lia. destruct (Z.even mx); lia.
Qed.

Lemma binary_round_aux_not_nan (sx : bool) (m e : Z) :
  0 <= m ->
  binary_round_aux PyFloat.prec PyFloat.emax sx m e loc_Exact <> S754_nan.
Proof.
  intros Hm. unfold binary_round_aux.
  pose proof (shr_fexp_nonneg m e loc_Exact Hm) as H1.
  destruct (shr_fexp PyFloat.prec PyFloat.emax m e loc_Exact) as [mrs' e'].
  cbn [fst] in H1.
  pose proof (shr_fexp_nonneg _ e' loc_Exact
                (round_nearest_even_nonneg _ (loc_of_shr_record mrs') H1))
    as H2.
  destruct (shr_fexp PyFloat.prec PyFloat.emax _ e' loc_Exact) as [mrs'' e''].
  cbn [fst] in H2.
  destruct (shr_m mrs'') as [|p|p]; [discriminate| |lia].
  destruct (e'' <=? PyFloat.emax - PyFloat.prec); discriminate.
Qed.

(** [float(n)] is a zero or a finite double whenever it is defined. *)
Lemma of_int_class (n : Z) (f : spec_float) :
  PyFloat.of_int n = inr f ->
  (exists s, f = S754_zero s) \/ (exists s m e, f = S754_finite s m e).
Proof.
  unfold PyFloat.of_int.
  assert (Hnan : binary_normalize PyFloat.prec PyFloat.emax n 0 false
                 <> S754_nan).
  { unfold binary_normalize, binary_round.
    destruct n as [|p|p]; [discriminate| |];
      destruct (shl_align _ _ _) as [mz ez];
      apply binary_round_aux_not_nan; lia. }
  destruct (binary_normalize PyFloat.prec PyFloat.emax n 0 false)
    as [s|s| |s m e]; try discriminate; try congruence.
  - intros [= <-]. left. now exists s.
  - intros [= <-]. right. now exists s, m, e.
Qed.

Lemma mul_zero_r (f : spec_float) (s : bool) :
  (exists s', f = S754_zero s') \/ (exists s' m e, f = S754_finite s' m e) ->
  exists s'', PyFloat.mul f (S754_zero s) = S754_zero s''.
Proof.
  intros [[s' ->]|(s' & m & e & ->)]; cbn; eexists; reflexivity.
Qed.

(** [prepare] on a split other than ["train"]: the lookup in
    [wudao_sets] raises [KeyError] before anything is printed and before
    any process is started. *)
Lemma prepare_unknown_split
    (w : World) (src tokp dest : string) (cs : Z) (split : string)
    (pct : spec_float) :
  split <> "train"%string ->
  prepare w src tokp dest cs split pct =
  {| orch_events := []; workers := []; outcome := inl KeyError |}.
Proof.
  intros Hne. unfold prepare, wudao_sets.
  destruct (String.eqb_spec split "train"); [contradiction|reflexivity].
Qed.

(** X15.  Whatever the percentage, a sample that is taken is a prefix of
    the enumeration: files are never reordered, repeated or invented, and
    the files handed to the workers are that prefix. *)
Theorem sample_is_a_prefix
    (w : World) (src tokp dest : string) (cs : Z) (pct : spec_float)
    (files : list string) :
  sample (glob_glob w (path_join src "./*")) pct = inr files ->
  0 < cpu_count w ->
  exists k, (k <= length (glob_glob w (path_join src "./*")))%nat /\
    files = firstn k (glob_glob w (path_join src "./*")) /\
    concat (started (prepare w src tokp dest cs "train" pct))
    = firstn k (glob_glob w (path_join src "./*")).
Proof.
  intros Hs Hcpu.
  pose proof (started_prepare w src tokp dest cs pct files Hs Hcpu) as Hst.
  set (listing := glob_glob w (path_join src "./*")) in *.
  assert (Hpre : exists k, (k <= length listing)%nat /\ files = firstn k listing).
  { unfold sample in Hs.
    destruct (PyFloat.int_mul _ pct) as [e|x]; [discriminate|].
    cbn [rbind] in Hs. destruct (PyFloat.to_int x) as [e|k]; [discriminate|].
    cbn [rbind] in Hs. injection Hs as <-. unfold slice_to.
    destruct (Z.leb_spec 0 k).
    - exists (Nat.min (Z.to_nat k) (length listing)). split; [lia|].
      now rewrite <- firstn_firstn, firstn_all.
    - exists (Z.to_nat (Z.of_nat (length listing) + k)).
      split; [lia|reflexivity]. }
  destruct Hpre as (k & Hk & ->). exists k. now rewrite Hst.
Qed.

Lemma sample_is_a_prefix_witness :
  exists k, (k <= 2)%nat /\
    ["a.json"%string] = firstn k ["a.json"; "b.json"]%string /\
    concat (started (prepare toy_world "data" "tok.model" "out" 3 "train"
                       float_half))
    = firstn k ["a.json"; "b.json"]%string.
Proof.
  exact (sample_is_a_prefix toy_world "data" "tok.model" "out" 3 float_half
           ["a.json"%string] eq_refl eq_refl).
Defined.

(** X16.  A percentage that is not-a-number or infinite: [prepare]
    raises [ValueError] or [OverflowError] at [int(...)], before anything
    is printed and before any process is started, whatever the files. *)
Theorem not_finite_percentage_fails_first
    (w : World) (src tokp dest : string) (cs : Z) (pct : spec_float) :
  not_finite pct = true ->
  exists e, (e = ValueError \/ e = OverflowError) /\
    prepare w src tokp dest cs "train" pct =
    {| orch_events := []; workers := []; outcome := inl e |}.
Proof.
  intros Hnf.
  assert (Hs : exists e, (e = ValueError \/ e = OverflowError) /\
                 sample (glob_glob w (path_join src "./*")) pct = inl e).
  { unfold sample, PyFloat.int_mul.
    destruct (PyFloat.of_int _) as [e|f] eqn:Hf.
    - exists OverflowError. split; [now right|].
      unfold PyFloat.of_int in Hf.
      destruct (binary_normalize _ _ _ _ _); try discriminate.
      now injection Hf as <-.
    - cbn [rbind].
      destruct (of_int_class _ _ Hf) as [[s ->]|(s & m & e & ->)];
        destruct pct as [s'|s'| |s' m' e']; try discriminate; cbn;
        eexists; (split; [|reflexivity]); tauto. }
  destruct Hs as (e & He & Hs). exists e. split; [exact He|].
  unfold prepare. change (wudao_sets "train") with (@inr exn string "./*").
  cbv iota beta. now rewrite Hs.
Qed.

Lemma not_finite_percentage_fails_first_witness :
  exists e, (e = ValueError \/ e = OverflowError) /\
    prepare toy_world "data" "tok.model" "out" 3 "train" S754_nan =
    {| orch_events := []; workers := []; outcome := inl e |}.
Proof.
  exact (not_finite_percentage_fails_first toy_world "data" "tok.model" "out"
           3 S754_nan eq_refl).
Defined.

Lemma digits2_pos_bounds (p : positive) :
  2 ^ (Z.pos (digits2_pos p) - 1) <= Z.pos p < 2 ^ Z.pos (digits2_pos p).
Proof.
  induction p as [p IH|p IH|]; cbn [digits2_pos].
  - rewrite Pos2Z.inj_succ.
    replace (Z.succ (Z.pos (digits2_pos p)) - 1) with (Z.succ (Z.pos (digits2_pos p) - 1)) by lia.
    rewrite !Z.pow_succ_r by lia. lia.
  - rewrite Pos2Z.inj_succ.
    replace (Z.succ (Z.pos (digits2_pos p)) - 1) with (Z.succ (Z.pos (digits2_pos p) - 1)) by lia.
    rewrite !Z.pow_succ_r by lia. lia.
  - cbn. lia.
Qed.

Lemma digits2_pos_le (p : positive) (k : Z) :
  0 <= k -> Z.pos p < 2 ^ k -> Z.pos (digits2_pos p) <= k.
Proof.
  intros Hk Hp. destruct (digits2_pos_bounds p) as [Hlo _].
  destruct (Z_le_gt_dec (Z.pos (digits2_pos p)) k) as [|Hgt]; [assumption|].
  exfalso. assert (2 ^ k <= 2 ^ (Z.pos (digits2_pos p) - 1)).
  { apply Z.pow_le_mono_r; lia. }
  lia.
Qed.

Lemma digits2_pos_iter_xO (p d : positive) :
  digits2_pos (Pos.iter xO p d) = (digits2_pos p + d)%positive.
Proof.
  induction d as [|d IH] using Pos.peano_ind.
  - cbn. lia.
  - rewrite Pos.iter_succ. cbn [digits2_pos]. rewrite IH. lia.
Qed.

(** A mantissa of exactly [prec] digits at a small exponent is kept. *)
Lemma binary_round_aux_exact (s : bool) (m : positive) (e : Z) :
  Z.pos (digits2_pos m) = 53 -> -1074 <= e <= 971 ->
  binary_round_aux PyFloat.prec PyFloat.emax s (Z.pos m) e loc_Exact
  = S754_finite s m e.
Proof.
  intros Hd He. unfold binary_round_aux.
  assert (Hshr : shr_fexp PyFloat.prec PyFloat.emax (Z.pos m) e loc_Exact
                 = ({| shr_m := Z.pos m; shr_r := false; shr_s := false |}, e)).
  { unfold shr_fexp, shr, fexp, emin, Zdigits2, PyFloat.prec, PyFloat.emax.
    rewrite Hd. cbn [shr_record_of_loc].
    replace (Z.sub (Z.max (Z.sub (Z.add 53 e) 53) (Z.sub (Z.sub 3 1024) 53)) e) with 0 by lia.
    reflexivity. }
  rewrite Hshr. cbn [shr_m loc_of_shr_record round_nearest_even].
  rewrite Hshr. cbn [shr_m].
  unfold PyFloat.emax, PyFloat.prec.
  destruct (Z.leb_spec e (1024 - 53)); [reflexivity|lia].
Qed.

(** [float(n)] is exact, hence defined, for a count below [2 ^ 53]. *)
Lemma of_int_small (n : Z) :
  0 <= n < 2 ^ 53 -> exists f, PyFloat.of_int n = inr f /\
    ((exists s, f = S754_zero s) \/ (exists s m e, f = S754_finite s m e)).
Proof.
  intros Hn. unfold PyFloat.of_int, binary_normalize.
  destruct n as [|p|p]; [| |lia].
  - eexists. split; [reflexivity|]. left. now eexists.
  - unfold binary_round.
    pose proof (digits2_pos_le p 53 ltac:(lia) ltac:(lia)) as Hd.
    unfold shl_align, fexp, emin, PyFloat.prec, PyFloat.emax.
    replace (Z.max (Z.pos (digits2_pos p) + 0 - 53) (3 - 1024 - 53))
      with (Z.pos (digits2_pos p) - 53) by lia.
    destruct (Z.pos (digits2_pos p) - 53 - 0) as [|d|d] eqn:Hk; [|lia|].
    + change (binary_round_aux 53 1024) with (binary_round_aux PyFloat.prec PyFloat.emax).
      rewrite binary_round_aux_exact by lia.
      eexists. split; [reflexivity|]. right. now do 3 eexists.
    + change (binary_round_aux 53 1024) with (binary_round_aux PyFloat.prec PyFloat.emax).
      rewrite binary_round_aux_exact.
      * eexists. split; [reflexivity|]. right. now do 3 eexists.
      * rewrite digits2_pos_iter_xO. lia.
      * lia.
Qed.

(** The only way [float(n)] fails is [OverflowError]. *)
Lemma of_int_error (n : Z) (e : exn) :
  PyFloat.of_int n = inl e -> e = OverflowError.
Proof.
  unfold PyFloat.of_int.
  destruct (binary_normalize _ _ _ _ _); try discriminate.
  now intros [= <-].
Qed.

(** X17.  The percentage 0.0 (of either sign) hands out no file.  The
    run fails with [OverflowError], before anything is printed or
    started, exactly when the count of files is too large for a double;
    in every other case, and so whenever the count is below [2 ^ 53],
    it succeeds and every process is started on an empty group. *)
Theorem zero_percentage_hands_out_nothing
    (w : World) (src tokp dest : string) (cs : Z) (s : bool) :
  0 < cpu_count w ->
  let r := prepare w src tokp dest cs "train" (S754_zero s) in
  let count := Z.of_nat (length (glob_glob w (path_join src "./*"))) in
  let overflow :=
    {| orch_events := []; workers := []; outcome := inl OverflowError |} in
  let all_empty :=
    outcome r = inr tt /\
    started r = repeat [] (Z.to_nat (cpu_count w)) in
  (r = overflow \/ all_empty) /\
  (PyFloat.of_int count = inl OverflowError <-> r = overflow) /\
  ((exists f, PyFloat.of_int count = inr f) <-> all_empty) /\
  (count < 2 ^ 53 -> all_empty).
Proof.
  intros Hcpu r count overflow all_empty.
  assert (Hover : PyFloat.of_int count = inl OverflowError -> r = overflow).
  { intros Hf. unfold r, prepare.
    change (wudao_sets "train") with (@inr exn string "./*").
    cbv iota beta. unfold sample, PyFloat.int_mul. fold count.
    rewrite Hf. reflexivity. }
  assert (Hfine : forall f, PyFloat.of_int count = inr f -> all_empty).
  { intros f Hf.
    assert (Hs : sample (glob_glob w (path_join src "./*")) (S754_zero s)
                 = inr []).
    { unfold sample, PyFloat.int_mul. fold count. rewrite Hf.
      cbn [rbind].
      destruct (mul_zero_r f s (of_int_class _ _ Hf)) as [s'' Hm].
      rewrite Hm. reflexivity. }
    destruct (prepare_run w src tokp dest cs (S754_zero s) [] Hs Hcpu)
      as (groups & _ & Hlen & Hcat & _ & Hrun).
    unfold all_empty, r. rewrite Hrun. unfold started.
    cbn [orch_events outcome].
    rewrite started_run_events. split; [reflexivity|].
    rewrite <- Hlen. clear -Hcat.
    induction groups as [|g groups IH]; [reflexivity|].
    cbn [concat] in Hcat. apply app_eq_nil in Hcat as [-> Hcat].
    cbn. now rewrite <- IH. }
  assert (Hexcl : r = overflow -> all_empty -> False).
  { intros Hr [Ho _]. rewrite Hr in Ho. discriminate Ho. }
  assert (Hd : PyFloat.of_int count = inl OverflowError \/
               exists f, PyFloat.of_int count = inr f).
  { destruct (PyFloat.of_int count) as [e|f] eqn:Hf.
    - left. now rewrite (of_int_error _ _ Hf).
    - right. now exists f. }
  split; [|split; [|split]].
  - destruct Hd as [Hf|[f Hf]]; [left; exact (Hover Hf)|].
    right. exact (Hfine f Hf).
  - split; [exact Hover|]. intros Hr.
    destruct Hd as [Hf|[f Hf]]; [exact Hf|].
    exfalso. exact (Hexcl Hr (Hfine f Hf)).
  - split; [intros [f Hf]; exact (Hfine f Hf)|]. intros Hall.
    destruct Hd as [Hf|Hf]; [|exact Hf].
    exfalso. exact (Hexcl (Hover Hf) Hall).
  - intros Hsmall.
    destruct (of_int_small count ltac:(unfold count; lia)) as (f & Hf & _).
    exact (Hfine f Hf).
Qed.

Lemma zero_percentage_hands_out_nothing_witness :
  let r := prepare toy_world "data" "tok.model" "out" 3 "train"
             (S754_zero false) in
  outcome r = inr tt /\ started r = [[]; []].
Proof.
  exact (proj2 (proj2 (proj2
           (zero_percentage_hands_out_nothing toy_world "data" "tok.model"
              "out" 3 false eq_refl))) eq_refl).
Defined.

End OrchestratorExtras.

Section GroupSlices.
Import Py Numpy PrepareWudao.

Lemma list_sum_firstn_S (l : list nat) : forall i,
  (i < length l)%nat ->
  list_sum (firstn (S i) l) = (list_sum (firstn i l) + nth i l 0)%nat.
Proof.
  induction l as [|x l IH]; intros i Hi; simpl in Hi; [lia|].
  destruct i as [|i]; [simpl; lia|].
  change (list_sum (firstn (S (S i)) (x :: l)))
    with (x + list_sum (firstn (S i) l))%nat.
  change (list_sum (firstn (S i) (x :: l)))
    with (x + list_sum (firstn i l))%nat.
  cbn [nth]. rewrite IH by lia. lia.
Qed.

(** Where section [i] starts: [i] whole shares and one more for each of
    the sections before it that are among the first [t mod n]. *)
Lemma section_offset (t n : nat) : forall i,
  (i <= n)%nat ->
  list_sum (firstn i (section_sizes t n))
  = (i * (t / n) + Nat.min i (t mod n))%nat.
Proof.
  induction i as [|i IH]; intros Hi; [reflexivity|].
  rewrite list_sum_firstn_S by (rewrite section_sizes_length; lia).
  rewrite IH by lia. rewrite section_sizes_at by lia.
  destruct (Nat.ltb_spec i (t mod n)); lia.
Qed.

Lemma sub_arys_nth {A} (sizes : list nat) : forall (st : nat) (ary : list A) i,
  (i < length sizes)%nat ->
  nth i (sub_arys st sizes ary) [] =
  slice (st + list_sum (firstn i sizes))
        (st + list_sum (firstn (S i) sizes)) ary.
Proof.
  induction sizes as [|n sizes IH]; intros st ary i Hi; simpl in Hi; [lia|].
  destruct i as [|i].
  - cbn [sub_arys nth].
    change (list_sum (firstn 0 (n :: sizes))) with 0%nat.
    change (list_sum (firstn 1 (n :: sizes))) with (n + 0)%nat.
    f_equal; lia.
  - cbn [sub_arys nth]. rewrite IH by lia.
    change (list_sum (firstn (S (S i)) (n :: sizes)))
      with (n + list_sum (firstn (S i) sizes))%nat.
    change (list_sum (firstn (S i) (n :: sizes)))
      with (n + list_sum (firstn i sizes))%nat.
    f_equal; lia.
Qed.

(** X18.  Which files a worker gets.  With [len] files left after
    sampling, [n] CPUs, [q = len / n] and [m = len mod n], process [i]
    is started on the [q] files (one more when [i < m]) that begin at
    position [i * q + min i m] of the list. *)
Theorem worker_gets_contiguous_slice
    (w : World) (src tokp dest : string) (cs : Z) (pct : spec_float)
    (files : list string) (i : nat) :
  sample (glob_glob w (path_join src "./*")) pct = inr files ->
  0 < cpu_count w ->
  (i < Z.to_nat (cpu_count w))%nat ->
  let n := Z.to_nat (cpu_count w) in
  let q := (length files / n)%nat in
  let m := (length files mod n)%nat in
  nth i (started (prepare w src tokp dest cs "train" pct)) [] =
  firstn (if (i <? m)%nat then S q else q)
    (skipn (i * q + Nat.min i m) files).
Proof.
  intros Hs Hcpu Hi n q m.
  destruct (prepare_run w src tokp dest cs pct files Hs Hcpu)
    as (groups & Hsplit & _ & _ & _ & Hrun).
  rewrite Hrun. unfold started. cbn [orch_events].
  rewrite started_run_events.
  unfold array_split in Hsplit.
  destruct (Z.leb_spec (cpu_count w) 0); [lia|]. injection Hsplit as <-.
  fold n. assert (Hn : (0 < n)%nat) by (unfold n; lia).
  rewrite sub_arys_nth by (rewrite section_sizes_length; lia).
  rewrite list_sum_firstn_S by (rewrite section_sizes_length; lia).
  rewrite section_offset by lia. rewrite section_sizes_at by lia.
  fold q m. unfold slice. f_equal. cbn [Nat.add].
  destruct (Nat.ltb_spec i m); lia.
Qed.

Lemma worker_gets_contiguous_slice_witness :
  nth 3 (started (prepare (toy_world_with eleven_files 4) "data" "tok.model"
                    "out" 4 "train" float_1)) []
  = firstn 2 (skipn 9 eleven_files).
Proof.
  exact (worker_gets_contiguous_slice (toy_world_with eleven_files 4) "data"
           "tok.model" "out" 4 float_1 eleven_files 3 eq_refl eq_refl
           ltac:(simpl; lia)).
Defined.

End GroupSlices.

Section DedupedLoop.
Import Py LitConfig ConfigMore.

Lemma Forall2_with_left {A B} (P : A -> Prop) (R : A -> B -> Prop)
    (l : list A) (l' : list B) :
  Forall P l -> Forall2 R l l' -> Forall2 (fun x y => P x /\ R x y) l l'.
Proof.
  intros HP HR. induction HR as [|x y l l' Hxy HR IH]; [constructor|].
  apply Forall_cons in HP as [Hx HP]. constructor; [now split|now apply IH].
Qed.

(** The first two presets of [pythia] through the loop: two new objects,
    named with the suffix, and the presets themselves as before. *)
Example deduped_example :
  let '(st', r) := append_deduped [0; 1]%nat [0; 1; 2; 3]%nat four_presets in
  r = Done [0; 1; 2; 3; 4; 5]%nat /\
  heap st' !! 0%nat = Some pythia_14m /\
  heap st' !! 4%nat
  = Some (<["name"%string := VStr "pythia-14m-deduped"]> pythia_14m) /\
  heap st' !! 5%nat
  = Some (<["name"%string := VStr "pythia-31m-deduped"]> pythia_31m).
Proof. repeat split; reflexivity. Qed.

(** X11.  The loop that adds the "-deduped" presets.  When it ends, the
    registry field and every object that existed are as they were, so no
    preset of [pythia] has changed; [configs] has grown by one new object
    per preset, in order, and each new object holds the items of its
    preset with ["name"] replaced by the preset's name followed by
    ["-deduped"]. *)
Theorem deduped_copies_leave_presets (pythia : list loc) :
  forall (configs configs' : list loc) (st st' : State),
  Forall (fun c => is_Some (heap st !! c)) pythia ->
  append_deduped pythia configs st = (st', Done configs') ->
  name_to_config st' = name_to_config st /\
  (forall l0, is_Some (heap st !! l0) -> heap st' !! l0 = heap st !! l0) /\
  exists copies,
    configs' = configs ++ copies /\
    Forall2 (fun c copy =>
               heap st !! copy = None /\
               exists d n,
                 heap st !! c = Some d /\
                 d !! "name"%string = Some (VStr n) /\
                 heap st' !! copy
                 = Some (<["name"%string := VStr (n +:+ "-deduped")]> d))
      pythia copies.
Proof.
  induction pythia as [|c rest IH]; intros configs configs' st st' Hall.
  - cbn [append_deduped]. intros [= <- <-].
    split; [reflexivity|]. split; [reflexivity|].
    exists []. rewrite app_nil_r. split; [reflexivity|constructor].
  - apply Forall_cons in Hall as [[d Hd] Hrest].
    cbn [append_deduped]. unfold dict_copy. rewrite Hd.
    pose proof (is_fresh (dom (heap st))) as Hfresh.
    set (copy := fresh (dom (heap st))) in *.
    assert (Hnone : heap st !! copy = None) by (now apply not_elem_of_dom).
    assert (Hne : c <> copy) by congruence.
    cbn [heap name_to_config].
    rewrite lookup_insert_ne by congruence. rewrite Hd.
    destruct (d !! "name"%string) as [[| | | |n|]|] eqn:Hn; try discriminate.
    unfold dict_set. cbn [heap name_to_config]. rewrite lookup_insert_eq.
    rewrite insert_insert_eq.
    set (st2 := {| heap := <[copy := <["name"%string :=
                                         VStr (n +:+ "-deduped")]> d]> (heap st);
                   name_to_config := name_to_config st |}).
    assert (Hframe2 : forall l0, is_Some (heap st !! l0) ->
              heap st2 !! l0 = heap st !! l0).
    { intros l0 [d0 Hl0]. cbn [st2 heap]. apply lookup_insert_ne. congruence. }
    intros Hrun.
    assert (Hrest2 : Forall (fun c' => is_Some (heap st2 !! c')) rest).
    { eapply Forall_impl; [exact Hrest|]. intros c' Hc'.
      now rewrite Hframe2. }
    destruct (IH (configs ++ [copy]) configs' st2 st' Hrest2 Hrun) as
      (Hreg & Hframe & copies & Hconf & Hcopies).
    split; [exact Hreg|]. split.
    { intros l0 Hl0. rewrite Hframe; [now apply Hframe2|].
      now rewrite Hframe2. }
    exists (copy :: copies). split; [now rewrite Hconf, <- app_assoc|].
    constructor.
    + split; [exact Hnone|]. exists d, n. repeat split; try assumption.
      rewrite Hframe by (cbn [st2 heap]; rewrite lookup_insert_eq; eauto).
      cbn [st2 heap]. apply lookup_insert_eq.
    + eapply Forall2_impl;
        [exact (Forall2_with_left _ _ _ _ Hrest Hcopies)|].
      intros c' copy' (Hc' & Hnone' & d' & n' & Hd' & Hn' & Hcopy').
      cbn [st2 heap] in Hnone', Hd'.
      assert (Hcc : copy' <> copy).
      { intros ->. now rewrite lookup_insert_eq in Hnone'. }
      assert (Hc'c : c' <> copy).
      { intros ->. rewrite Hnone in Hc'. now destruct Hc'. }
      rewrite lookup_insert_ne in Hnone' by congruence.
      rewrite lookup_insert_ne in Hd' by congruence.
      split; [exact Hnone'|]. exists d', n'. repeat split; assumption.
Qed.

Lemma deduped_copies_leave_presets_witness :
  heap (fst (append_deduped [0; 1]%nat [0; 1; 2; 3]%nat four_presets)) !! 0%nat
  = heap four_presets !! 0%nat.
Proof.
  refine (proj1 (proj2 (deduped_copies_leave_presets [0; 1]%nat
            [0; 1; 2; 3]%nat [0; 1; 2; 3; 4; 5]%nat four_presets
            (fst (append_deduped [0; 1]%nat [0; 1; 2; 3]%nat four_presets))
            _ _)) 0%nat _).
  - repeat constructor; eexists; reflexivity.
  - reflexivity.
  - eexists. reflexivity.
Defined.

End DedupedLoop.
